(** * txyoga: REST object publishing -- content negotiation, pagination
      and verb dispatch, embedded from [txyoga/errors.py],
      [txyoga/serializers.py] and [txyoga/resource.py]. *)

From Stdlib Require Import ZArith Ascii String List Lia Bool.
From Stdlib Require Import DecimalString DecimalZ.
From stdpp Require Import base gmap strings list.

Set Warnings "-register-all".
Local Open Scope Z_scope.

(** ** Python values *)

(** The values that travel through the resources: decoded request
    states, attribute values, error details and response envelopes.
    A [PyDict] keeps its items in insertion order. *)
Inductive pyval : Type :=
| PyNone
| PyBool (b : bool)
| PyInt (z : Z)
| PyStr (s : string)
| PyList (l : list pyval)
| PyDict (d : list (string * pyval)).

(** Python's [==] on these values. [True == 1] holds in Python, a
    string never equals a number, and dicts compare item by item
    regardless of order. *)
Fixpoint py_eqb (a b : pyval) {struct a} : bool :=
  match a, b with
  | PyNone, PyNone => true
  | PyBool x, PyBool y => Bool.eqb x y
  | PyBool x, PyInt y => Z.eqb (Z.b2z x) y
  | PyInt x, PyBool y => Z.eqb x (Z.b2z y)
  | PyInt x, PyInt y => Z.eqb x y
  | PyStr x, PyStr y => String.eqb x y
  | PyList xs, PyList ys =>
      (fix go (xs ys : list pyval) {struct xs} : bool :=
         match xs, ys with
         | [], [] => true
         | x :: xs', y :: ys' => py_eqb x y && go xs' ys'
         | _, _ => false
         end) xs ys
  | PyDict d1, PyDict d2 =>
      Nat.eqb (length d1) (length d2) &&
      (fix go (d : list (string * pyval)) {struct d} : bool :=
         match d with
         | [] => true
         | (k, v) :: d' =>
             match List.find (fun kv => String.eqb (fst kv) k) d2 with
             | Some (_, v') => py_eqb v v'
             | None => false
             end && go d'
         end) d1
  | _, _ => false
  end.

(** [a != b] *)
Definition py_ne (a b : pyval) : bool := negb (py_eqb a b).

(** ** Python strings *)

Module PyString.

(** The characters [str.strip()] removes when called without
    argument: space, tab, newline, carriage return, vertical tab and
    form feed. *)
Definition isspace (c : ascii) : bool :=
  let n := nat_of_ascii c in
  (Nat.eqb n 32 || (Nat.leb 9 n && Nat.leb n 13))%bool.

Definition is_char (x : ascii) (c : ascii) : bool := Ascii.eqb c x.

Fixpoint lstrip (p : ascii -> bool) (s : string) : string :=
  match s with
  | EmptyString => EmptyString
  | String c s' => if p c then lstrip p s' else s
  end.

Fixpoint rstrip (p : ascii -> bool) (s : string) : string :=
  match s with
  | EmptyString => EmptyString
  | String c s' =>
      match rstrip p s' with
      | EmptyString => if p c then EmptyString else String c EmptyString
      | r => String c r
      end
  end.

(** [s.strip()] and [s.strip(chars)] for the character set [p]. *)
Definition strip_with (p : ascii -> bool) (s : string) : string :=
  rstrip p (lstrip p s).

Definition strip (s : string) : string := strip_with isspace s.

(** [s.split(sep)] for a one-character separator: always at least
    one piece, empty pieces are kept. *)
Fixpoint split (sep : ascii) (s : string) : list string :=
  match s with
  | EmptyString => [EmptyString]
  | String c s' =>
      if Ascii.eqb c sep then EmptyString :: split sep s'
      else match split sep s' with
           | [] => [String c EmptyString]
           | piece :: pieces => String c piece :: pieces
           end
  end.

(** [s.split(sep, 1)]: cut at the first separator only. *)
Fixpoint split1 (sep : ascii) (s : string) : list string :=
  match s with
  | EmptyString => [EmptyString]
  | String c s' =>
      if Ascii.eqb c sep then [EmptyString; s']
      else match split1 sep s' with
           | [] => [String c EmptyString]
           | piece :: pieces => String c piece :: pieces
           end
  end.

Definition lower_char (c : ascii) : ascii :=
  let n := nat_of_ascii c in
  if (Nat.leb 65 n && Nat.leb n 90)%bool then ascii_of_nat (n + 32) else c.

(** [s.lower()] on a byte string. *)
Fixpoint lower (s : string) : string :=
  match s with
  | EmptyString => EmptyString
  | String c s' => String (lower_char c) (lower s')
  end.

(** [c in s] for a character. *)
Fixpoint contains (c : ascii) (s : string) : bool :=
  match s with
  | EmptyString => false
  | String c' s' => Ascii.eqb c' c || contains c s'
  end.

(** [str(n)] for an integer. *)
Definition of_Z (n : Z) : string := NilZero.string_of_int (Z.to_int n).

(** [int(s)] for a byte string: surrounding whitespace is dropped,
    one sign is allowed, at least one decimal digit must follow. *)
Definition to_Z (s : string) : option Z :=
  match strip s with
  | String c s' =>
      if Ascii.eqb c "-" then
        option_map (fun d => - Z.of_uint d) (NilZero.uint_of_string s')
      else if Ascii.eqb c "+" then
        option_map Z.of_uint (NilZero.uint_of_string s')
      else option_map Z.of_uint (NilZero.uint_of_string (String c s'))
  | EmptyString => None
  end.

End PyString.

(** ** Exceptions and results *)

(** The error classes of [txyoga/errors.py]. *)
Inductive errclass : Type :=
| SerializableError
| UnsupportedContentTypeError
| MissingContentType
| UnacceptableRequestError
| PaginationError
| MissingResourceError
| AttributeValueUpdateError
| IdentifierError.

(** An instance of a serializable error: [message] and [details] are
    set once by [__init__]. *)
Record serializable : Type := MkError {
  errClass : errclass;
  message : string;
  details : list (string * pyval)
}.

Module http.
Definition OK : Z := 200.
Definition CREATED : Z := 201.
Definition NO_CONTENT : Z := 204.
Definition BAD_REQUEST : Z := 400.
Definition FORBIDDEN : Z := 403.
Definition NOT_FOUND : Z := 404.
Definition NOT_ACCEPTABLE : Z := 406.
Definition UNSUPPORTED_MEDIA_TYPE : Z := 415.
End http.

(** The class attribute [responseCode]; [PaginationError] inherits the
    one of [SerializableError]. *)
Definition classResponseCode (c : errclass) : Z :=
  match c with
  | SerializableError => http.BAD_REQUEST
  | UnsupportedContentTypeError => http.UNSUPPORTED_MEDIA_TYPE
  | MissingContentType => http.UNSUPPORTED_MEDIA_TYPE
  | UnacceptableRequestError => http.NOT_ACCEPTABLE
  | PaginationError => http.BAD_REQUEST
  | MissingResourceError => http.NOT_FOUND
  | AttributeValueUpdateError => http.FORBIDDEN
  | IdentifierError => http.FORBIDDEN
  end.

Definition responseCode (e : serializable) : Z := classResponseCode (errClass e).

(** What a Python call can raise here. [AttributeError m a] is the
    failed lookup of name [a] in module or object [m]; [Fault] stands
    for any other exception of a backing implementation. *)
Inductive exn : Type :=
| KeyError
| ValueError
| IndexError
| TypeError
| AttributeError (m a : string)
| Serializable (e : serializable)
| Fault (name : string).

Inductive outcome (A : Type) : Type :=
| Returned (a : A)
| Raised (e : exn).
Arguments Returned {A} a.
Arguments Raised {A} e.

Definition obind {A B} (c : outcome A) (k : A -> outcome B) : outcome B :=
  match c with
  | Returned a => k a
  | Raised e => Raised e
  end.

Declare Scope outcome_scope.
Delimit Scope outcome_scope with outcome.
Notation "x <- c ;; k" := (obind c (fun x => k))
  (at level 100, c at next level, right associativity) : outcome_scope.

(** ** [txyoga/errors.py] *)

Module errors.

(** The names the module binds to error classes, in source order. *)
Definition namespace : list (string * errclass) :=
  [ ("SerializableError", SerializableError);
    ("UnsupportedContentTypeError", UnsupportedContentTypeError);
    ("MissingContentType", MissingContentType);
    ("UnacceptableRequestError", UnacceptableRequestError);
    ("PaginationError", PaginationError);
    ("MissingResourceError", MissingResourceError);
    ("AttributeValueUpdateError", AttributeValueUpdateError);
    ("IdentifierError", IdentifierError) ].

(** [errors.<name>]: attribute access on the module. *)
Definition attr (name : string) : outcome errclass :=
  match List.find (fun kv => String.eqb (fst kv) name) namespace with
  | Some (_, c) => Returned c
  | None => Raised (AttributeError "txyoga.errors" name)
  end.

Section Constructors.
(** [repr] of a value, a builtin. *)
Variable repr : pyval -> string.

(** Calling a class: the [__init__] of each class, on positional
    arguments. A class without [__init__] of its own takes the
    message and, optionally, the details. *)
Definition new (cls : errclass) (args : list pyval) : outcome serializable :=
  match cls, args with
  | UnsupportedContentTypeError, [supportedContentTypes; providedContentType] =>
      Returned (MkError cls "no acceptable decoder available for given content type"
                  [("supportedContentTypes", supportedContentTypes);
                   ("providedContentType", providedContentType)])
  | MissingContentType, [supportedContentTypes] =>
      Returned (MkError cls "request didn't specify a content type"
                  [("supportedContentTypes", supportedContentTypes)])
  | UnacceptableRequestError, [supportedContentTypes; acceptedContentTypes] =>
      Returned (MkError cls "no acceptable encoder available"
                  [("supportedContentTypes", supportedContentTypes);
                   ("acceptedContentTypes", acceptedContentTypes)])
  | AttributeValueUpdateError, [attribute; newValue] =>
      Returned (MkError cls
                  "attribute update not allowed and provided value differs from existing value, update aborted"
                  [("attribute", attribute); ("newValue", newValue)])
  | AttributeValueUpdateError, [attribute; newValue; currentValue] =>
      Returned (MkError cls
                  "attribute update not allowed and provided value differs from existing value, update aborted"
                  [("attribute", attribute); ("newValue", newValue);
                   ("currentValue", currentValue)])
  | IdentifierError, [expected; actual] =>
      Returned (MkError cls "new element did not have specified identifying attribute"
                  [("actualIdentifyingAttribute", PyStr (repr actual));
                   ("expectedIdentifyingAttribute", PyStr (repr expected))])
  | (SerializableError | PaginationError | MissingResourceError), [PyStr message] =>
      Returned (MkError cls message [])
  | (SerializableError | PaginationError | MissingResourceError),
    [PyStr message; PyNone] =>
      Returned (MkError cls message [])
  | (SerializableError | PaginationError | MissingResourceError),
    [PyStr message; PyDict details] =>
      Returned (MkError cls message details)
  | _, _ => Raised TypeError
  end.

(** [raise errors.<name>(...)]: the name is looked up, the class
    is called, the instance is raised. *)
Definition raise_ {A} (name : string) (args : list pyval) : outcome A :=
  (cls <- attr name ;;
   e <- new cls args ;;
   Raised (Serializable e))%outcome.
End Constructors.

End errors.

(** ** [txyoga/serializers.py]: header parsing and codecs *)

(** What goes over the wire. [JsonText doc] is the JSON text of the
    document [doc], as [json.dumps] writes it and [json.load] reads it
    back; [RawText] is any other body. *)
Inductive wire : Type :=
| JsonText (doc : pyval)
| RawText (s : string).

(** What an encoder is handed: a plain value or an error instance. *)
Inductive pyobj : Type :=
| Plain (v : pyval)
| ErrorObj (e : serializable).

(** An encoding or decoding function with the [contentType] attribute
    that [forContentType] attaches to it. *)
Record codec (I O : Type) : Type := MkCodec {
  contentType : string;
  call : I -> outcome O
}.
Arguments MkCodec {I O} contentType call.
Arguments contentType {I O} c.
Arguments call {I O} c i.

Abbreviation Encoder := (codec pyobj wire).
Abbreviation Decoder := (codec wire pyval).

Module serializers.

(** [_RESTResourceJSONEncoder.default]: only reached for objects
    [json] cannot serialise by itself, here the error instances. *)
Definition _RESTResourceJSONEncoder_default (obj : pyobj) : outcome pyval :=
  match obj with
  | ErrorObj e =>
      Returned (PyDict [("errorMessage", PyStr (message e));
                        ("errorDetails", PyDict (details e))])
  | Plain _ => Raised TypeError
  end.

Definition jsonDecode : Decoder :=
  MkCodec "application/json"
    (fun state => match state with
                  | JsonText doc => Returned doc
                  | RawText _ => Raised ValueError
                  end).

Definition jsonEncode : Encoder :=
  MkCodec "application/json"
    (fun obj => match obj with
                | Plain v => Returned (JsonText v)
                | ErrorObj _ =>
                    obind (_RESTResourceJSONEncoder_default obj)
                          (fun doc => Returned (JsonText doc))
                end).

(** [key, value = map(str.strip, param.split("=", 1))]: unpacking
    anything but two pieces is a [ValueError]. *)
Definition parseParam (param : string) : outcome (string * string) :=
  match List.map PyString.strip (PyString.split1 "=" param) with
  | [key; value] => Returned (key, value)
  | _ => Raised ValueError
  end.

(** The inner loop of [_parseAccept], filling [params]. *)
Fixpoint parseParams (rawParams : list string) (params : gmap string string)
  : outcome (gmap string string) :=
  match rawParams with
  | [] => Returned params
  | param :: rest =>
      (kv <- parseParam param ;;
       parseParams rest (<[fst kv := snd kv]> params))%outcome
  end.

(** The outer loop of [_parseAccept], appending to [accepted]. *)
Fixpoint parseParts (parts : list string)
         (accepted : list (string * gmap string string))
  : outcome (list (string * gmap string string)) :=
  match parts with
  | [] => Returned accepted
  | part :: rest =>
      let part := PyString.strip part in
      if String.eqb part "" then parseParts rest accepted
      else
        match PyString.split ";" part with
        | [] => Raised IndexError
        | first :: rawParams =>
            let contentType := PyString.strip first in
            (params <- parseParams rawParams ∅ ;;
             parseParts rest (accepted ++ [(contentType, params)]))%outcome
        end
  end.

Definition _parseAccept (header : string)
  : outcome (list (string * gmap string string)) :=
  parseParts (PyString.split "," (PyString.strip_with (PyString.is_char ".") header)) [].

End serializers.

(** ** Requests *)

(** A URL by the five components [urlsplit] yields and [urlunsplit]
    puts together. *)
Record url : Type := MkUrl {
  scheme : string;
  netloc : string;
  path : string;
  query : string;
  fragment : string
}.

(** The part of a [twisted.web] request the resources read. Header
    names are stored in lower case; [queryPairs] are the name/value
    pairs of the query string in the order they were sent. *)
Record request : Type := MkRequest {
  method : string;
  postpath : list string;
  requestHeaders : gmap string string;
  queryPairs : list (string * string);
  content : wire;
  prePathURL : url
}.

Definition getHeader (r : request) (name : string) : option string :=
  requestHeaders r !! PyString.lower name.

(** [request.args]: every name is bound to the list of its values, in
    the order sent; a name that was not sent is not bound. *)
Definition parse_qs (pairs : list (string * string)) : gmap string (list string) :=
  fold_left (fun (d : gmap string (list string)) kv =>
               match d !! fst kv with
               | Some values => <[fst kv := values ++ [snd kv]]> d
               | None => <[fst kv := [snd kv]]> d
               end) pairs ∅.

Definition args (r : request) : gmap string (list string) := parse_qs (queryPairs r).

(** ** The backing collection and its elements *)

(** The operations the resources invoke on the collection they wrap
    and on its elements. [C] is the state of the collection, [E] an
    element. An operation may raise and may change the collection. *)
Class Backing (C E : Type) : Type := {
  removeByIdentifier : string -> C -> outcome unit * C;
  getitem : string -> C -> outcome E * C;
  getslice : Z -> Z -> C -> outcome (list E) * C;
  createElementFromState : pyval -> C -> outcome E * C;
  add : E -> C -> outcome unit * C;
  pageSize : C -> Z;
  maxPageSize : C -> Z;
  exposedElementAttributes : C -> list string;
  identifyingAttribute : E -> string;
  getattr : E -> string -> outcome pyval;
  toState : E -> option (list string) -> outcome pyval;
  update : E -> pyval -> C -> outcome unit * C
}.

(** One invocation of a collection or element operation. *)
Inductive invocation (E : Type) : Type :=
| RemoveByIdentifier (identifier : string)
| GetItem (identifier : string)
| GetSlice (start stop : Z)
| CreateElementFromState (state : pyval)
| Add (element : E)
| Update (element : E) (state : pyval).
Arguments RemoveByIdentifier {E} identifier.
Arguments GetItem {E} identifier.
Arguments GetSlice {E} start stop.
Arguments CreateElementFromState {E} state.
Arguments Add {E} element.
Arguments Update {E} element state.

(** ** State of a request being handled *)

(** The collection behind the resource, the operations invoked on it
    so far, and what has been set on the response. *)
Record world (C E : Type) : Type := MkWorld {
  collection : C;
  invoked : list (invocation E);
  status : Z;
  responseHeaders : gmap string string
}.
Arguments MkWorld {C E} collection invoked status responseHeaders.
Arguments collection {C E} w.
Arguments invoked {C E} w.
Arguments status {C E} w.
Arguments responseHeaders {C E} w.

Definition M (C E A : Type) : Type := world C E -> outcome A * world C E.

Section Monad.
Context {C E : Type}.

Definition ret {A} (a : A) : M C E A := fun w => (Returned a, w).

Definition bind {A B} (c : M C E A) (k : A -> M C E B) : M C E B :=
  fun w => match c w with
           | (Returned a, w') => k a w'
           | (Raised e, w') => (Raised e, w')
           end.


Definition lift {A} (o : outcome A) : M C E A := fun w => (o, w).

(** [request.setHeader(name, value)] *)
Definition setHeader (name value : string) : M C E unit :=
  fun w => (Returned tt,
            MkWorld (collection w) (invoked w) (status w)
                    (<[name := value]> (responseHeaders w))).

(** [request.setResponseCode(code)] *)
Definition setResponseCode (code : Z) : M C E unit :=
  fun w => (Returned tt,
            MkWorld (collection w) (invoked w) code (responseHeaders w)).

(** Invoking an operation of the collection: the call is recorded,
    then the operation runs on the collection's state. *)
Definition invoke {A} (what : invocation E) (op : C -> outcome A * C) : M C E A :=
  fun w => let (r, c') := op (collection w) in
           (r, MkWorld c' (invoked w ++ [what]) (status w) (responseHeaders w)).
End Monad.

Declare Scope m_scope.
Delimit Scope m_scope with M.
Notation "x <- c ;; k" := (bind c (fun x => k))
  (at level 100, c at next level, right associativity) : m_scope.
Notation "c ;;; k" := (bind c (fun _ => k))
  (at level 100, right associativity) : m_scope.

(** ** [EncodingResource] *)

(** The class attributes of an [EncodingResource]. *)
Record EncodingResource : Type := MkEncodingResource {
  defaultEncoder : Encoder;
  encoders : list Encoder;
  decoders : list Decoder
}.

Definition encoderTypes (self : EncodingResource) : list string :=
  List.map contentType (encoders self).

Definition decoderTypes (self : EncodingResource) : list string :=
  List.map contentType (decoders self).

(** The resource as the class body declares it. *)
Definition jsonResource : EncodingResource :=
  MkEncodingResource serializers.jsonEncode [serializers.jsonEncode] [serializers.jsonDecode].

(** The two nested loops of [_getEncoder]: accepted types outside,
    registered encoders inside; the first hit wins. *)
Fixpoint firstAccepted {I O} (accepted : list string) (codecs : list (codec I O))
  : option (codec I O) :=
  match accepted with
  | [] => None
  | contentType' :: rest =>
      match List.find (fun c => String.eqb (contentType c) contentType') codecs with
      | Some c => Some c
      | None => firstAccepted rest codecs
      end
  end.

Definition strings (l : list string) : pyval := PyList (List.map PyStr l).

Section Negotiation.
Context {C E : Type}.
Variable repr : pyval -> string.

Local Open Scope m_scope.

Definition _getEncoder (self : EncodingResource) (request : request) : M C E Encoder :=
  let accept := match getHeader request "Accept" with
                | Some h => if String.eqb h "" then "*/*" else h
                | None => "*/*"
                end in
  parsed <- lift (serializers._parseAccept accept) ;;
  let accepted := List.map (fun p => PyString.lower (fst p)) parsed in
  match firstAccepted accepted (encoders self) with
  | Some encoder =>
      setHeader "Content-Type" (contentType encoder) ;;;
      ret encoder
  | None =>
      if existsb (String.eqb "*/*") accepted then
        let encoder := defaultEncoder self in
        setHeader "Content-Type" (contentType encoder) ;;;
        ret encoder
      else
        lift (errors.raise_ repr "UnacceptableRequest"
                [strings (encoderTypes self); strings accepted])
  end.

Definition _getDecoder (self : EncodingResource) (request : request) : M C E Decoder :=
  match getHeader request "Content-Type" with
  | None =>
      lift (errors.raise_ repr "MissingContentType" [strings (decoderTypes self)])
  | Some contentType' =>
      match List.find (fun d => String.eqb (contentType d) contentType') (decoders self) with
      | Some decoder => ret decoder
      | None =>
          lift (errors.raise_ repr "UnsupportedContentType"
                  [strings (decoderTypes self); PyStr contentType'])
      end
  end.

(** [withEncoder] and [withDecoder] resolve the codec, then run the
    decorated method. The source stores the codec on the request;
    here it is handed to the method. *)
Definition withEncoder {A} (m : Encoder -> M C E A)
           (self : EncodingResource) (request : request) : M C E A :=
  encoder <- _getEncoder self request ;; m encoder.

Definition withDecoder {A} (m : Decoder -> M C E A)
           (self : EncodingResource) (request : request) : M C E A :=
  decoder <- _getDecoder self request ;; m decoder.

(** What a method wrapped by [reportErrors] hands back: its own
    result, or the body of the error report. *)
Inductive reply (A : Type) : Type :=
| Completed (a : A)
| ErrorReport (body : wire).

(** The three shapes of a method wrapped by [reportErrors] in
    [resource.py]: with an [encoder] parameter, with a [decoder]
    parameter, with neither. *)
Inductive handler (A : Type) : Type :=
| NeedsEncoder (m : Encoder -> M C E A)
| NeedsDecoder (m : Decoder -> M C E A)
| NeedsNeither (m : M C E A).

(** Modelled from the spec: the first step of [reportErrors], which
    is missing from the sources. By section 4.3 of the specification
    a handler's encoder or decoder is resolved before any other work;
    the resolution is the one of [withEncoder] and [withDecoder]. *)
Definition negotiated {A} (h : handler A)
           (self : EncodingResource) (request : request) : M C E A :=
  match h with
  | NeedsEncoder _ m => withEncoder m self request
  | NeedsDecoder _ m => withDecoder m self request
  | NeedsNeither _ m => m
  end.

(** Modelled from the spec: [resource.py] imports [reportErrors]
    from [txyoga.serializers], which does not define it. By sections
    4.3, 6 and 7 of the specification a typed error raised while the
    codec is resolved or by the handler ends the request and is
    written out as [{"errorMessage": ..., "errorDetails": ...}] with
    the error's status code. Any other exception is a fault of the
    request and propagates. *)
Definition reportErrors {A} (h : handler A)
           (self : EncodingResource) (request : request) : M C E (reply A) :=
  fun w =>
    match negotiated h self request w with
    | (Returned a, w') => (Returned (Completed A a), w')
    | (Raised (Serializable e), w') =>
        (setResponseCode (responseCode e) ;;;
         body <- lift (call serializers.jsonEncode (ErrorObj e)) ;;
         ret (ErrorReport A body)) w'
    | (Raised other, w') => (Raised other, w')
    end.
End Negotiation.
Arguments Completed {A} a.
Arguments ErrorReport {A} body.
Arguments NeedsEncoder {C E A} m.
Arguments NeedsDecoder {C E A} m.
Arguments NeedsNeither {C E A} m.

(** ** [urllib] and [urlparse] *)

(** [urlencode] of pairs whose values are integers: [quote_plus]
    leaves letters, digits and the minus sign as they are. *)
Fixpoint urlencode (pairs : list (string * Z)) : string :=
  match pairs with
  | [] => ""
  | [(k, v)] => k +:+ "=" +:+ PyString.of_Z v
  | (k, v) :: rest => k +:+ "=" +:+ PyString.of_Z v +:+ "&" +:+ urlencode rest
  end.

(** The schemes [urlparse.uses_netloc] lists. *)
Definition uses_netloc : list string :=
  ["ftp"; "http"; "gopher"; "nntp"; "telnet"; "imap"; "wais"; "file"; "mms";
   "https"; "shttp"; "snews"; "prospero"; "rtsp"; "rtspu"; "rsync"; "";
   "svn"; "svn+ssh"; "sftp"; "nfs"; "git"; "git+ssh"].

Definition startswith (p s : string) : bool := String.prefix p s.

Definition urlunsplit (u : url) : string :=
  let url1 :=
    if (negb (String.eqb (netloc u) "")
        || (negb (String.eqb (scheme u) "")
            && existsb (String.eqb (scheme u)) uses_netloc
            && negb (startswith "//" (path u))))%bool
    then
      let p := if (negb (String.eqb (path u) "") && negb (startswith "/" (path u)))%bool
               then "/" +:+ path u else path u in
      "//" +:+ netloc u +:+ p
    else path u in
  let url2 := if String.eqb (scheme u) "" then url1 else scheme u +:+ ":" +:+ url1 in
  let url3 := if String.eqb (query u) "" then url2 else url2 +:+ "?" +:+ query u in
  if String.eqb (fragment u) "" then url3 else url3 +:+ "#" +:+ fragment u.

(** ** [txyoga/resource.py] *)

(** The resources [getChild] can hand back. *)
Inductive resource (E : Type) : Type :=
| Created
| Deleted
| ElementResource (element : E).
Arguments Created {E}.
Arguments Deleted {E}.
Arguments ElementResource {E} element.

(** [None] or a string, as a JSON value. *)
Definition optional (o : option string) : pyval :=
  match o with
  | Some s => PyStr s
  | None => PyNone
  end.

Section Resources.
Context {C E : Type} `{Backing C E}.
Variable repr : pyval -> string.

Local Open Scope m_scope.

(** Reading an attribute of [self._collection]. *)
Definition attribute {A} (f : C -> A) : M C E A :=
  fun w => (Returned (f (collection w)), w).

(** [Created.render] and [Deleted.render]. *)
Definition Created_render : M C E wire :=
  setResponseCode http.CREATED ;;; ret (RawText "").

Definition Deleted_render : M C E wire :=
  setResponseCode http.NO_CONTENT ;;; ret (RawText "").

(** The body of the [try] in [_getBound]. *)
Definition _getBound_try (args : gmap string (list string)) (key : string) : outcome Z :=
  (values <- match args !! key with
             | Some values => Returned values
             | None => Raised KeyError
             end ;;
   if negb (Nat.eqb (length values) 1) then
     errors.raise_ repr "PaginationError"
       [PyStr ("duplicate key " +:+ key +:+ " in query")]
   else
     match values with
     | [] => Raised IndexError
     | value :: _ =>
         match PyString.to_Z value with
         | Some n => Returned n
         | None => Raised ValueError
         end
     end)%outcome.

Definition _getBound (args : gmap string (list string)) (key : string) (default : Z)
  : outcome Z :=
  match _getBound_try args key with
  | Raised KeyError => Returned default
  | Raised ValueError =>
      errors.raise_ repr "PaginationError"
        [PyStr ("key " +:+ key +:+ " not an integer")]
  | other => other
  end.

Definition _getBounds (request : request) : M C E (Z * Z) :=
  start <- lift (_getBound (args request) "start" 0) ;;
  pageSize' <- attribute pageSize ;;
  stop <- lift (_getBound (args request) "stop" pageSize') ;;
  ret (start, stop).

(** The local function [buildURL] of [_getPaginationURLs]. *)
Definition buildURL (thisURL : url) (start stop : Z) : string :=
  urlunsplit (MkUrl (scheme thisURL) (netloc thisURL) (path thisURL)
                    (urlencode [("start", start); ("stop", stop)]) "").

Definition _getPaginationURLs (thisURL : url) (start stop : Z)
  : M C E (option string * option string) :=
  let pageSize' := stop - start in
  if pageSize' <? 0 then
    lift (errors.raise_ repr "PaginationError" [PyStr "Requested page size is negative"])
  else
    maxPageSize' <- attribute maxPageSize ;;
    if pageSize' >? maxPageSize' then
      lift (errors.raise_ repr "PaginationError" [PyStr "Requested page size too large"])
    else
      let prevStart := Z.max 0 (start - pageSize') in
      let prevStop := start in
      let prevURL := if negb (prevStart =? prevStop)
                     then Some (buildURL thisURL prevStart prevStop)
                     else None in
      let nextURL := Some (buildURL thisURL stop (stop + pageSize')) in
      ret (prevURL, nextURL).

(** [[element.toState(attrs) for element in elements]] *)
Fixpoint toStates (attrs : list string) (elements : list E) : outcome (list pyval) :=
  match elements with
  | [] => Returned []
  | element :: rest =>
      (state <- toState element (Some attrs) ;;
       states <- toStates attrs rest ;;
       Returned (state :: states))%outcome
  end.

(** The response of a collection listing. *)
Definition envelope (results : list pyval) (prevURL nextURL : option string) : pyval :=
  PyDict [("results", PyList results);
          ("prev", optional prevURL);
          ("next", optional nextURL)].

Definition render_GET_body (request : request) (encoder : Encoder) : M C E wire :=
  bounds <- _getBounds request ;;
  let start := fst bounds in
  let stop := snd bounds in
  let url := prePathURL request in
  links <- _getPaginationURLs url start stop ;;
  let prevURL := fst links in
  elements <- invoke (GetSlice start stop) (getslice start stop) ;;
  attrs <- attribute exposedElementAttributes ;;
  results <- lift (toStates attrs elements) ;;
  let nextURL := if (stop - start) >? Z.of_nat (length elements)
                 then None else snd links in
  let response := envelope results prevURL nextURL in
  lift (call encoder (Plain response)).

Definition _createElement_body (request : request) (identifier : option string)
           (decoder : Decoder) : M C E (resource E) :=
  state <- lift (call decoder (content request)) ;;
  element <- invoke (CreateElementFromState state) (createElementFromState state) ;;
  match identifier with
  | Some identifier =>
      actualIdentifier <- lift (getattr element (identifyingAttribute element)) ;;
      if py_ne actualIdentifier (PyStr identifier) then
        lift (errors.raise_ repr "IdentifierError" [PyStr identifier; actualIdentifier])
      else ret tt
  | None => ret tt
  end ;;;
  invoke (Add element) (add element) ;;;
  ret Created.

Definition _missingElement_body (element : string) : M C E (resource E) :=
  lift (errors.raise_ repr "MissingResourceError" [PyStr ("no such element " +:+ element)]).

Section Collection.
Variable self : EncodingResource.

Definition _createElement (request : request) (identifier : option string)
  : M C E (reply (resource E)) :=
  reportErrors repr (NeedsDecoder (_createElement_body request identifier)) self request.

Definition _missingElement (request : request) (element : string)
  : M C E (reply (resource E)) :=
  reportErrors repr (NeedsNeither (_missingElement_body element)) self request.

Definition render_GET (request : request) : M C E (reply wire) :=
  reportErrors repr (NeedsEncoder (render_GET_body request)) self request.

(** [IResource(element)]: the registered adapter builds the
    element's resource. *)
Definition IResource (element : E) : M C E (resource E) :=
  ret (ElementResource element).

(** The [try] block of [getChild]. *)
Definition getChild_try (path : string) (request : request)
  : M C E (reply (resource E)) :=
  if (String.eqb (method request) "DELETE"
      && Nat.eqb (length (postpath request)) 0)%bool then
    invoke (RemoveByIdentifier path) (removeByIdentifier path) ;;;
    ret (Completed Deleted)
  else
    element <- invoke (GetItem path) (getitem path) ;;
    r <- IResource element ;;
    ret (Completed r).

Definition getChild (path : string) (request : request)
  : M C E (reply (resource E)) :=
  fun w =>
    match getChild_try path request w with
    | (Raised KeyError, w') =>
        if (String.eqb (method request) "PUT"
            && Nat.eqb (length (postpath request)) 0)%bool
        then _createElement request (Some path) w'
        else _missingElement request path w'
    | other => other
    end.
End Collection.


Definition element_render_PUT_body (element : E) (request : request) (decoder : Decoder)
  : M C E wire :=
  state <- lift (call decoder (content request)) ;;
  invoke (Update element state) (update element state) ;;;
  ret (RawText "").


Definition element_render_PUT (self : EncodingResource) (element : E) (request : request)
  : M C E (reply wire) :=
  reportErrors repr (NeedsDecoder (element_render_PUT_body element request)) self request.
End Resources.

(** ** A collection held in memory *)

(** Modelled from the spec: the backing collection is implemented
    outside the sources. Section 3 of the specification describes it
    as a container of elements with unique identifiers, read by
    identifier or by ordinal range, with the attributes [pageSize],
    [maxPageSize] and [exposedElementAttributes]. This one keeps its
    elements in a list, in the order they were added. *)
Module Store.

Record element : Type := MkElement {
  idAttribute : string;
  attributes : list (string * pyval)
}.

Record t : Type := MkStore {
  elements : list element;
  defaultIdAttribute : string;
  storePageSize : Z;
  storeMaxPageSize : Z;
  exposed : list string
}.

Definition count (c : t) : Z := Z.of_nat (length (elements c)).

Definition lookupAttr (name : string) (attrs : list (string * pyval)) : option pyval :=
  option_map snd (List.find (fun kv => String.eqb (fst kv) name) attrs).

Definition elemGetattr (e : element) (name : string) : outcome pyval :=
  match lookupAttr name (attributes e) with
  | Some v => Returned v
  | None => Raised (AttributeError "element" name)
  end.

Definition hasIdentifier (identifier : string) (e : element) : bool :=
  match lookupAttr (idAttribute e) (attributes e) with
  | Some v => py_eqb v (PyStr identifier)
  | None => false
  end.

Definition withElements (c : t) (l : list element) : t :=
  MkStore l (defaultIdAttribute c) (storePageSize c) (storeMaxPageSize c) (exposed c).

Definition storeGetitem (identifier : string) (c : t) : outcome element * t :=
  match List.find (hasIdentifier identifier) (elements c) with
  | Some e => (Returned e, c)
  | None => (Raised KeyError, c)
  end.

Definition storeRemove (identifier : string) (c : t) : outcome unit * t :=
  match List.find (hasIdentifier identifier) (elements c) with
  | Some _ =>
      (Returned tt,
       withElements c (List.filter (fun e => negb (hasIdentifier identifier e)) (elements c)))
  | None => (Raised KeyError, c)
  end.

(** An index of a Python slice, brought into [0 .. len]. *)
Definition clamp (len i : Z) : Z :=
  if i <? 0 then Z.max (i + len) 0 else Z.min i len.

(** [l[start:stop]] *)
Definition pyslice {A} (l : list A) (start stop : Z) : list A :=
  let len := Z.of_nat (length l) in
  let a := clamp len start in
  let b := clamp len stop in
  firstn (Z.to_nat (b - a)) (skipn (Z.to_nat a) l).

Definition storeGetslice (start stop : Z) (c : t) : outcome (list element) * t :=
  (Returned (pyslice (elements c) start stop), c).

Definition storeCreate (state : pyval) (c : t) : outcome element * t :=
  match state with
  | PyDict d => (Returned (MkElement (defaultIdAttribute c) d), c)
  | _ => (Raised TypeError, c)
  end.

Definition sameIdentifier (e e' : element) : bool :=
  match lookupAttr (idAttribute e) (attributes e),
        lookupAttr (idAttribute e') (attributes e') with
  | Some v, Some v' => py_eqb v v'
  | _, _ => false
  end.

Definition storeAdd (e : element) (c : t) : outcome unit * t :=
  if existsb (sameIdentifier e) (elements c)
  then (Raised (Fault "DuplicateElementError"), c)
  else (Returned tt, withElements c (elements c ++ [e])).

Fixpoint project (e : element) (attrs : list string) : outcome (list (string * pyval)) :=
  match attrs with
  | [] => Returned []
  | name :: rest =>
      (v <- elemGetattr e name ;;
       items <- project e rest ;;
       Returned ((name, v) :: items))%outcome
  end.

Definition elemToState (e : element) (attrs : option (list string)) : outcome pyval :=
  match attrs with
  | None => Returned (PyDict (attributes e))
  | Some names => obind (project e names) (fun items => Returned (PyDict items))
  end.

Definition storeUpdate (e : element) (state : pyval) (c : t) : outcome unit * t :=
  match state with
  | PyDict d =>
      (Returned tt,
       withElements c
         (List.map (fun e' => if sameIdentifier e e'
                              then MkElement (idAttribute e') d else e')
                   (elements c)))
  | _ => (Raised TypeError, c)
  end.

#[global] Instance backing : Backing t element := {|
  removeByIdentifier := storeRemove;
  getitem := storeGetitem;
  getslice := storeGetslice;
  createElementFromState := storeCreate;
  add := storeAdd;
  pageSize := storePageSize;
  maxPageSize := storeMaxPageSize;
  exposedElementAttributes := exposed;
  identifyingAttribute := idAttribute;
  getattr := elemGetattr;
  toState := elemToState;
  update := storeUpdate
|}.

(** [repr] of the values used as identifiers in the examples:
    strings in single quotes, integers in decimal. *)
Definition reprExample (v : pyval) : string :=
  match v with
  | PyStr s => "'" +:+ s +:+ "'"
  | PyInt n => PyString.of_Z n
  | PyNone => "None"
  | PyBool true => "True"
  | PyBool false => "False"
  | PyList _ => "[...]"
  | PyDict _ => "{...}"
  end.

Definition fresh (c : t) : world t element := MkWorld c [] http.OK ∅.

End Store.

(** ** Requests and collections used in the examples *)

Module Examples.
Import Store.

Definition things : url := MkUrl "http" "localhost" "/things" "" "".

Definition mkRequest (method : string) (headers : list (string * string))
           (pairs : list (string * string)) (body : wire) : request :=
  MkRequest method [] (list_to_map headers) pairs body things.

Definition thing (name : string) : element :=
  MkElement "name" [("name", PyStr name); ("colour", PyStr "red")].

(** Two elements, pages of three, at most ten per page. *)
Definition twoThings : t :=
  MkStore [thing "a"; thing "b"] "name" 3 10 ["name"].

(** No element, pages of ten, but at most five per page. *)
Definition narrow : t := MkStore [] "name" 10 5 ["name"].

Definition getXml : request := mkRequest "GET" [("accept", "text/xml")] [] (RawText "").
Definition getParamWithoutValue : request :=
  mkRequest "GET" [("accept", "text/html;q")] [] (RawText "").
Definition postXml : request :=
  mkRequest "POST" [("content-type", "text/xml")] [] (RawText "<thing/>").
Definition plainGet : request := mkRequest "GET" [] [] (RawText "").
Definition delete : request := mkRequest "DELETE" [] [] (RawText "").
Definition put (name : pyval) : request :=
  mkRequest "PUT" [("content-type", "application/json")] []
            (JsonText (PyDict [("name", name)])).
End Examples.

(** ** Vocabulary of the properties *)

(** A segment of the header one of whose parameters has no [=]. *)
Definition paramWithoutEquals (part : string) : Prop :=
  exists param,
    In param (List.tl (PyString.split ";" (PyString.strip part))) /\
    PyString.contains "=" param = false.

(** The header has a segment with a parameter without [=]. *)
Definition malformedAccept (header : string) : Prop :=
  exists part,
    In part (PyString.split "," (PyString.strip_with (PyString.is_char ".") header)) /\
    paramWithoutEquals part.

(** [request.getHeader("Accept") or '*/*'] *)
Definition acceptOf (request : request) : string :=
  match getHeader request "Accept" with
  | Some h => if String.eqb h "" then "*/*" else h
  | None => "*/*"
  end.

(** The accepted content types, lower-cased, in header order. *)
Definition acceptedTypes (parsed : list (string * gmap string string)) : list string :=
  List.map (fun p => PyString.lower (fst p)) parsed.

(** The values sent for [key], in order. *)
Definition valuesOf (key : string) (pairs : list (string * string)) : list string :=
  List.map snd (List.filter (fun kv => String.eqb (fst kv) key) pairs).

(** A pagination error as an exception. *)
Definition paginationError (message : string) : exn :=
  Serializable (MkError PaginationError message []).

(** A parameter sent more than once, or once with a value that is
    no integer. *)
Definition repeated (key : string) (request : request) : Prop :=
  (1 < length (valuesOf key (queryPairs request)))%nat.

Definition notAnInteger (key : string) (request : request) : Prop :=
  exists value, valuesOf key (queryPairs request) = [value] /\
                PyString.to_Z value = None.

(** One of the two bounds cannot be resolved. *)
Definition unresolved (request : request) : Prop :=
  repeated "start" request \/ repeated "stop" request \/
  notAnInteger "start" request \/ notAnInteger "stop" request.

(** A pagination error, with its status 400. *)
Definition isPaginationError {A} (r : outcome A) : Prop :=
  exists e, r = Raised (Serializable e) /\ errClass e = PaginationError /\
            responseCode e = http.BAD_REQUEST.

Section Window.
Context {C E : Type} `{Backing C E}.
Variable repr : pyval -> string.

(** The three statements [render_GET] starts with: the bounds, then
    the links. *)
Definition render_GET_window (request : request)
  : M C E (Z * Z * (option string * option string)) :=
  (bounds <- _getBounds repr request ;;
   links <- _getPaginationURLs repr (prePathURL request) (fst bounds) (snd bounds) ;;
   ret (bounds, links))%M.

(** The width of the resolved window is negative or above
    [maxPageSize]. *)
Definition badWidth (request : request) (w : world C E) : Prop :=
  exists start stop,
    fst (_getBounds repr request w) = Returned (start, stop) /\
    (stop - start < 0 \/ maxPageSize (collection w) < stop - start).
End Window.

(** Every character of [s] satisfies [p]. *)
Fixpoint allChars (p : ascii -> bool) (s : string) : bool :=
  match s with
  | EmptyString => true
  | String c s' => p c && allChars p s'
  end.

(** A sign that [int] accepts in front of the digits. *)
Definition isSign (c : ascii) : bool := Ascii.eqb c "-" || Ascii.eqb c "+".

(** A character of a written integer: a digit or the minus sign. *)
Definition isNumeral (c : ascii) : bool :=
  let n := nat_of_ascii c in
  (Nat.leb 48 n && Nat.leb n 57) || Ascii.eqb c "-".

(** The body every reported error is written as. *)
Definition errorBody (e : serializable) : wire :=
  JsonText (PyDict [("errorMessage", PyStr (message e));
                    ("errorDetails", PyDict (details e))]).

(** The state of the request once [e] has been reported: only the
    status has changed. *)
Definition reported {C E} (e : serializable) (w : world C E) : world C E :=
  MkWorld (collection w) (invoked w) (responseCode e) (responseHeaders w).

(** The state once [what] has been invoked and left the collection
    as [c]. *)
Definition after {C E} (what : invocation E) (c : C) (w : world C E) : world C E :=
  MkWorld c (invoked w ++ [what]) (status w) (responseHeaders w).

(** The error [_missingElement] raises. *)
Definition missingResource (element : string) : serializable :=
  MkError MissingResourceError ("no such element " +:+ element) [].

(** The error raised when a new element is put where its identifier
    does not belong. *)
Definition identifierMismatch (repr : pyval -> string) (expected actual : pyval)
  : serializable :=
  MkError IdentifierError "new element did not have specified identifying attribute"
          [("actualIdentifyingAttribute", PyStr (repr actual));
           ("expectedIdentifyingAttribute", PyStr (repr expected))].

(** ** Vocabulary of the further properties *)

(** A segment of the header that is not blank, and the content type
    it names: what stands before its first semicolon. *)
Definition nonBlank (part : string) : bool :=
  negb (String.eqb (PyString.strip part) "").

Definition segmentType (part : string) : string :=
  PyString.strip (List.hd "" (PyString.split ";" (PyString.strip part))).

(** The segments of an [Accept] header. *)
Definition segments (header : string) : list string :=
  PyString.split "," (PyString.strip_with (PyString.is_char ".") header).

(** The state of the request once the content type of the response
    has been set. *)
Definition typed {C E} (contentType' : string) (w : world C E) : world C E :=
  MkWorld (collection w) (invoked w) (status w)
          (<["Content-Type" := contentType']> (responseHeaders w)).

(** An encoder registered under a content type written with capital
    letters, and a resource that has it as its only and default
    encoder. *)
Definition capitalJson : Encoder :=
  MkCodec "Application/JSON" (call serializers.jsonEncode).

Definition capitalResource : EncodingResource :=
  MkEncodingResource capitalJson [capitalJson] [serializers.jsonDecode].

(** The name/value pairs of the query [buildURL] writes for a window,
    as a request that follows the link carries them. *)
Definition linkPairs (start stop : Z) : list (string * string) :=
  [("start", PyString.of_Z start); ("stop", PyString.of_Z stop)].

(** The address of a page without its query. *)
Definition pageAddress (thisURL : url) : string :=
  urlunsplit (MkUrl (scheme thisURL) (netloc thisURL) (path thisURL) "" "").

(** The request is a [method] on the last segment of the path:
    [request.method == method and not request.postpath]. *)
Definition terminal (method' : string) (request : request) : bool :=
  String.eqb (method request) method' && Nat.eqb (length (postpath request)) 0.

(** The error raised for a request body without content type. *)
Definition missingContentType (supported : list string) : serializable :=
  MkError MissingContentType "request didn't specify a content type"
          [("supportedContentTypes", strings supported)].

(** A collection that cannot be reached: every operation raises. *)
Definition unreachable : Backing unit unit := {|
  removeByIdentifier := fun _ c => (Raised (Fault "ConnectionLost"), c);
  getitem := fun _ c => (Raised (Fault "ConnectionLost"), c);
  getslice := fun _ _ c => (Raised (Fault "ConnectionLost"), c);
  createElementFromState := fun _ c => (Raised (Fault "ConnectionLost"), c);
  add := fun _ c => (Raised (Fault "ConnectionLost"), c);
  pageSize := fun _ => 10;
  maxPageSize := fun _ => 100;
  exposedElementAttributes := fun _ => [];
  identifyingAttribute := fun _ => "name";
  getattr := fun _ _ => Raised (Fault "ConnectionLost");
  toState := fun _ _ => Raised (Fault "ConnectionLost");
  update := fun _ _ c => (Raised (Fault "ConnectionLost"), c)
|}.

(** ** [CollectionResource.render_POST] *)

Section Posting.
Context {C E : Type} `{Backing C E}.
Variable repr : pyval -> string.

Local Open Scope m_scope.

End Posting.


(** * Properties *)

(** ** Header parsing *)

Section ParseAccept.
Import serializers.

Lemma split_nonempty sep s : PyString.split sep s <> [].
Proof.
  destruct s as [|c s]; simpl; [discriminate|].
  destruct (Ascii.eqb c sep); [discriminate|].
  destruct (PyString.split sep s); discriminate.
Qed.

Lemma split1_without_separator sep s :
  PyString.contains sep s = false -> PyString.split1 sep s = [s].
Proof.
  induction s as [|c s IH]; simpl; [reflexivity|].
  intros Hc. apply orb_false_iff in Hc as [Hc Hs].
  rewrite Hc, (IH Hs). reflexivity.
Qed.

Lemma parseParam_without_equals param :
  PyString.contains "=" param = false -> parseParam param = Raised ValueError.
Proof.
  intros Hc. unfold parseParam.
  rewrite (split1_without_separator _ _ Hc). reflexivity.
Qed.

Lemma parseParam_raises param e :
  parseParam param = Raised e -> e = ValueError.
Proof.
  unfold parseParam.
  destruct (List.map PyString.strip (PyString.split1 "=" param)) as [|k [|v [|x l]]];
    congruence.
Qed.

Lemma parseParams_raises rawParams : forall params e,
  parseParams rawParams params = Raised e -> e = ValueError.
Proof.
  induction rawParams as [|param rest IH]; simpl; intros params e; [discriminate|].
  destruct (parseParam param) as [kv|e'] eqn:Hp; simpl.
  - apply IH.
  - intros [= <-]. eapply parseParam_raises; eassumption.
Qed.

Lemma parseParams_without_equals rawParams param :
  In param rawParams -> PyString.contains "=" param = false ->
  forall params, parseParams rawParams params = Raised ValueError.
Proof.
  induction rawParams as [|p rest IH]; simpl; intros Hin Hc params; [contradiction|].
  destruct (parseParam p) as [kv|e] eqn:Hp; simpl.
  - destruct Hin as [->|Hin].
    + rewrite parseParam_without_equals in Hp by assumption. discriminate.
    + apply IH; assumption.
  - f_equal. eapply parseParam_raises; eassumption.
Qed.

Lemma parseParts_raises parts : forall accepted e,
  parseParts parts accepted = Raised e -> e = ValueError.
Proof.
  induction parts as [|part rest IH]; simpl; intros accepted e; [discriminate|].
  destruct (String.eqb (PyString.strip part) ""); [apply IH|].
  destruct (PyString.split ";" (PyString.strip part)) as [|first rawParams] eqn:Hs.
  - exfalso. eapply split_nonempty; eassumption.
  - destruct (parseParams rawParams ∅) as [params|e'] eqn:Hp; simpl.
    + apply IH.
    + intros [= <-]. eapply parseParams_raises; eassumption.
Qed.

Lemma parseParts_without_equals parts part :
  In part parts -> paramWithoutEquals part ->
  forall accepted, parseParts parts accepted = Raised ValueError.
Proof.
  induction parts as [|p rest IH]; simpl; intros Hin Hbad accepted; [contradiction|].
  destruct (String.eqb (PyString.strip p) "") eqn:Hempty.
  - destruct Hin as [->|Hin]; [|apply IH; assumption].
    apply String.eqb_eq in Hempty. destruct Hbad as (param & Hp & _).
    rewrite Hempty in Hp. simpl in Hp. contradiction.
  - destruct (PyString.split ";" (PyString.strip p)) as [|first rawParams] eqn:Hs.
    + exfalso. eapply split_nonempty; eassumption.
    + destruct (parseParams rawParams ∅) as [params|e] eqn:Hp; simpl.
      * destruct Hin as [->|Hin]; [|apply IH; assumption].
        destruct Hbad as (param & Hparam & Hc). rewrite Hs in Hparam. simpl in Hparam.
        rewrite (parseParams_without_equals _ _ Hparam Hc) in Hp. discriminate.
      * f_equal. eapply parseParams_raises; eassumption.
Qed.

Lemma parseAccept_malformed header :
  malformedAccept header -> _parseAccept header = Raised ValueError.
Proof.
  intros (part & Hin & Hbad). unfold _parseAccept.
  eapply parseParts_without_equals; eassumption.
Qed.

(** Whatever the header, parsing returns or raises [ValueError]. *)
Lemma parseAccept_raises header e :
  _parseAccept header = Raised e -> e = ValueError.
Proof. apply parseParts_raises. Qed.
End ParseAccept.

(** ** Content negotiation *)

Section NegotiationProperties.
Context {C E : Type}.
Variable repr : pyval -> string.

Lemma getEncoder_unparsed (self : EncodingResource) request (w : world C E) e :
  serializers._parseAccept (acceptOf request) = Raised e ->
  _getEncoder repr self request w = (Raised e, w).
Proof.
  intros Hp. unfold _getEncoder, bind, lift. fold (acceptOf request).
  rewrite Hp. reflexivity.
Qed.

(** First part of encoder resolution: the accepted types are tried
    in header order and the first registered encoder of the first
    type that has one is returned, after its content type is set on
    the response. *)
Lemma getEncoder_first_match (self : EncodingResource) request (w : world C E)
      parsed encoder :
  serializers._parseAccept (acceptOf request) = Returned parsed ->
  firstAccepted (acceptedTypes parsed) (encoders self) = Some encoder ->
  _getEncoder repr self request w =
    (Returned encoder,
     MkWorld (collection w) (invoked w) (status w)
             (<["Content-Type" := contentType encoder]> (responseHeaders w))).
Proof.
  intros Hp Hf. unfold _getEncoder, bind, lift. fold (acceptOf request).
  rewrite Hp. fold (acceptedTypes parsed). rewrite Hf. reflexivity.
Qed.

(** Second part: no registered encoder for any accepted type, but
    the wildcard was accepted: the default encoder. *)
Lemma getEncoder_default (self : EncodingResource) request (w : world C E) parsed :
  serializers._parseAccept (acceptOf request) = Returned parsed ->
  firstAccepted (acceptedTypes parsed) (encoders self) = None ->
  In "*/*" (acceptedTypes parsed) ->
  _getEncoder repr self request w =
    (Returned (defaultEncoder self),
     MkWorld (collection w) (invoked w) (status w)
             (<["Content-Type" := contentType (defaultEncoder self)]> (responseHeaders w))).
Proof.
  intros Hp Hf Hw. unfold _getEncoder, bind, lift. fold (acceptOf request).
  rewrite Hp. fold (acceptedTypes parsed). rewrite Hf.
  replace (existsb (String.eqb "*/*") (acceptedTypes parsed)) with true; [reflexivity|].
  symmetry. apply existsb_exists. exists "*/*". split; [assumption|reflexivity].
Qed.

(** Third part: nothing matches and no wildcard. The name
    [UnacceptableRequest] is not bound in [errors], so the lookup
    fails before any error instance is built. *)
Lemma getEncoder_unacceptable (self : EncodingResource) request (w : world C E) parsed :
  serializers._parseAccept (acceptOf request) = Returned parsed ->
  firstAccepted (acceptedTypes parsed) (encoders self) = None ->
  ~ In "*/*" (acceptedTypes parsed) ->
  _getEncoder repr self request w =
    (Raised (AttributeError "txyoga.errors" "UnacceptableRequest"), w).
Proof.
  intros Hp Hf Hw. unfold _getEncoder, bind, lift. fold (acceptOf request).
  rewrite Hp. fold (acceptedTypes parsed). rewrite Hf.
  replace (existsb (String.eqb "*/*") (acceptedTypes parsed)) with false; [reflexivity|].
  symmetry. apply not_true_is_false. intros Hex. apply Hw.
  apply existsb_exists in Hex as (x & Hin & Heq).
  apply String.eqb_eq in Heq. subst x. assumption.
Qed.

(** What [firstAccepted] finds: the accepted types before the hit
    have no registered encoder, and the hit is the first encoder
    registered for its type. *)
Lemma firstAccepted_spec {I O} (accepted : list string) (codecs : list (codec I O)) c :
  firstAccepted accepted codecs = Some c ->
  exists before after,
    accepted = before ++ contentType c :: after /\
    In c codecs /\
    (forall t c', In t before -> In c' codecs -> contentType c' <> t) /\
    List.find (fun c' => String.eqb (contentType c') (contentType c)) codecs = Some c.
Proof.
  induction accepted as [|t rest IH]; simpl; [discriminate|].
  destruct (List.find (fun c' => String.eqb (contentType c') t) codecs) as [c0|] eqn:Hf.
  - intros [= ->]. pose proof (find_some _ _ Hf) as [Hin Heq].
    apply String.eqb_eq in Heq. subst t.
    exists [], rest. repeat split; try assumption. intros t c' [].
  - intros Hrest. destruct (IH Hrest) as (before & after & -> & Hin & Hnone & Hfirst).
    exists (t :: before), after. repeat split; try assumption.
    intros t' c' [<-|Ht'] Hc'.
    + intros Heq. pose proof (find_none _ _ Hf _ Hc') as Hne. simpl in Hne.
      rewrite Heq, String.eqb_refl in Hne. discriminate.
    + apply Hnone; assumption.
Qed.

Lemma getDecoder_missing (self : EncodingResource) request (w : world C E) :
  getHeader request "Content-Type" = None ->
  _getDecoder repr self request w =
    (Raised (Serializable
               (MkError MissingContentType "request didn't specify a content type"
                        [("supportedContentTypes", strings (decoderTypes self))])), w).
Proof. intros Hh. unfold _getDecoder. rewrite Hh. reflexivity. Qed.

Lemma getDecoder_match (self : EncodingResource) request (w : world C E) t decoder :
  getHeader request "Content-Type" = Some t ->
  List.find (fun d => String.eqb (contentType d) t) (decoders self) = Some decoder ->
  _getDecoder repr self request w = (Returned decoder, w).
Proof. intros Hh Hf. unfold _getDecoder. rewrite Hh, Hf. reflexivity. Qed.

Lemma getDecoder_unsupported (self : EncodingResource) request (w : world C E) t :
  getHeader request "Content-Type" = Some t ->
  List.find (fun d => String.eqb (contentType d) t) (decoders self) = None ->
  _getDecoder repr self request w =
    (Raised (AttributeError "txyoga.errors" "UnsupportedContentType"), w).
Proof. intros Hh Hf. unfold _getDecoder. rewrite Hh, Hf. reflexivity. Qed.

(** C10: an [Accept] header with a segment one of whose
    semicolon-separated parameters has no [=] makes [_parseAccept]
    raise [ValueError], which is no serializable error, and
    [_getEncoder] lets it through: neither is total on header
    strings. *)
Theorem parseAccept_not_total (header : string) :
  malformedAccept header ->
  serializers._parseAccept header = Raised ValueError /\
  (forall s, ValueError <> Serializable s) /\
  forall (self : EncodingResource) request (w : world C E),
    acceptOf request = header ->
    _getEncoder repr self request w = (Raised ValueError, w).
Proof.
  intros Hbad. pose proof (parseAccept_malformed _ Hbad) as Hp.
  split; [assumption|]. split; [discriminate|].
  intros self request w <-. apply getEncoder_unparsed. assumption.
Qed.
End NegotiationProperties.

Lemma parseAccept_not_total_witness :
  malformedAccept "text/html;q" /\
  serializers._parseAccept "text/html;q" = Raised ValueError /\
  _getEncoder Store.reprExample jsonResource Examples.getParamWithoutValue
              (Store.fresh Examples.twoThings)
  = (Raised ValueError, Store.fresh Examples.twoThings).
Proof.
  assert (Hbad : malformedAccept "text/html;q").
  { exists "text/html;q". split; [simpl; auto|].
    exists "q". split; [simpl; auto|reflexivity]. }
  split; [exact Hbad|].
  destruct (parseAccept_not_total (C:=Store.t) (E:=Store.element)
              Store.reprExample "text/html;q" Hbad) as (Hp & _ & Hg).
  split; [exact Hp|]. apply Hg. reflexivity.
Defined.

(** C1 at [Accept: text/xml] on a resource with the JSON encoder
    only: no encoder matches, the wildcard is not accepted, and the
    request ends in an [AttributeError] for [errors.UnacceptableRequest]
    instead of the 406 error with its two lists. *)
Theorem getEncoder_text_xml :
  _getEncoder Store.reprExample jsonResource Examples.getXml
              (Store.fresh Examples.twoThings)
  = (Raised (AttributeError "txyoga.errors" "UnacceptableRequest"),
     Store.fresh Examples.twoThings)
  /\ errors.attr "UnacceptableRequestError" = Returned UnacceptableRequestError
  /\ errors.new Store.reprExample UnacceptableRequestError
       [strings (encoderTypes jsonResource); strings ["text/xml"]]
     = Returned (MkError UnacceptableRequestError "no acceptable encoder available"
                   [("supportedContentTypes", PyList [PyStr "application/json"]);
                    ("acceptedContentTypes", PyList [PyStr "text/xml"])]).
Proof. repeat split; reflexivity. Qed.

(** C6 at [Content-Type: text/xml] on a resource with the JSON decoder
    only: the header is there, no decoder matches, and the request
    ends in an [AttributeError] for [errors.UnsupportedContentType]
    instead of the 415 error. *)
Theorem getDecoder_text_xml :
  _getDecoder Store.reprExample jsonResource Examples.postXml
              (Store.fresh Examples.twoThings)
  = (Raised (AttributeError "txyoga.errors" "UnsupportedContentType"),
     Store.fresh Examples.twoThings)
  /\ errors.attr "UnsupportedContentTypeError" = Returned UnsupportedContentTypeError.
Proof. split; reflexivity. Qed.

(** ** Query parameters *)

Lemma parse_qs_fold key pairs : forall d : gmap string (list string),
  fold_left (fun (d : gmap string (list string)) kv =>
               match d !! fst kv with
               | Some values => <[fst kv := values ++ [snd kv]]> d
               | None => <[fst kv := [snd kv]]> d
               end) pairs d !! key
  = match d !! key with
    | Some values => Some (values ++ valuesOf key pairs)
    | None => match valuesOf key pairs with
              | [] => None
              | values => Some values
              end
    end.
Proof.
  induction pairs as [|[k v] rest IH]; intros d; simpl.
  - unfold valuesOf. simpl. destruct (d !! key); [rewrite app_nil_r|]; reflexivity.
  - rewrite IH. unfold valuesOf. simpl.
    destruct (String.eqb k key) eqn:Hk.
    + apply String.eqb_eq in Hk. subst k. simpl.
      destruct (d !! key) as [values|] eqn:Hd.
      * rewrite lookup_insert_eq, <- app_assoc. reflexivity.
      * rewrite lookup_insert_eq. reflexivity.
    + apply String.eqb_neq in Hk.
      destruct (d !! k); rewrite lookup_insert_ne by assumption; reflexivity.
Qed.

Lemma args_lookup request key :
  args request !! key = match valuesOf key (queryPairs request) with
                        | [] => None
                        | values => Some values
                        end.
Proof. unfold args, parse_qs. rewrite parse_qs_fold, lookup_empty. reflexivity. Qed.

(** ** Pagination *)

Section PaginationProperties.
Context {C E : Type} `{Backing C E}.
Variable repr : pyval -> string.

(** [_getBound] by the number of values sent for the key. *)
Lemma getBound_cases request key default :
  _getBound repr (args request) key default =
    match valuesOf key (queryPairs request) with
    | [] => Returned default
    | [value] =>
        match PyString.to_Z value with
        | Some n => Returned n
        | None => Raised (paginationError ("key " +:+ key +:+ " not an integer"))
        end
    | _ => Raised (paginationError ("duplicate key " +:+ key +:+ " in query"))
    end.
Proof.
  unfold _getBound, _getBound_try. rewrite args_lookup.
  destruct (valuesOf key (queryPairs request)) as [|v [|v' l]]; simpl; try reflexivity.
  destruct (PyString.to_Z v); reflexivity.
Qed.

Lemma getBounds_cases request (w : world C E) :
  _getBounds repr request w =
    (obind (_getBound repr (args request) "start" 0) (fun start =>
       obind (_getBound repr (args request) "stop" (pageSize (collection w))) (fun stop =>
         Returned (start, stop))), w).
Proof.
  unfold _getBounds, bind, lift, attribute, ret.
  destruct (_getBound repr (args request) "start" 0); simpl; [|reflexivity].
  destruct (_getBound repr (args request) "stop" (pageSize (collection w))); reflexivity.
Qed.

(** A name bound to no value at all, which no query string gives,
    counts as a duplicate. *)
Lemma getBound_no_value (args : gmap string (list string)) key default :
  args !! key = Some [] ->
  _getBound repr args key default =
    Raised (paginationError ("duplicate key " +:+ key +:+ " in query")).
Proof. intros Hk. unfold _getBound, _getBound_try. rewrite Hk. reflexivity. Qed.

(** C8: without [start] the start bound is 0; without [stop] the
    stop bound is the collection's [pageSize], whatever the start
    bound is; a parameter sent once with an integer value gives that
    value. *)
Theorem getBounds_defaults request (w : world C E) :
  let pairs := queryPairs request in
  let size := pageSize (collection w) in
  (valuesOf "start" pairs = [] ->
     _getBound repr (args request) "start" 0 = Returned 0 /\
     forall stop, _getBound repr (args request) "stop" size = Returned stop ->
                  _getBounds repr request w = (Returned (0, stop), w)) /\
  (valuesOf "stop" pairs = [] ->
     _getBound repr (args request) "stop" size = Returned size /\
     forall start, _getBound repr (args request) "start" 0 = Returned start ->
                   _getBounds repr request w = (Returned (start, size), w)) /\
  (forall key default value n,
     valuesOf key pairs = [value] -> PyString.to_Z value = Some n ->
     _getBound repr (args request) key default = Returned n).
Proof.
  intros pairs size. split; [|split].
  - intros Hnone. split.
    + rewrite getBound_cases. fold pairs. rewrite Hnone. reflexivity.
    + intros stop Hstop. rewrite getBounds_cases. fold size. rewrite Hstop.
      rewrite getBound_cases. fold pairs. rewrite Hnone. reflexivity.
  - intros Hnone. split.
    + rewrite getBound_cases. fold pairs. rewrite Hnone. reflexivity.
    + intros start Hstart. rewrite getBounds_cases. fold size. rewrite Hstart.
      rewrite getBound_cases. fold pairs. rewrite Hnone. reflexivity.
  - intros key default value n Hv Hn. rewrite getBound_cases. fold pairs.
    rewrite Hv, Hn. reflexivity.
Qed.

Lemma paginationError_is {A} message :
  isPaginationError (@Raised A (paginationError message)).
Proof. eexists. split; [reflexivity|]. split; reflexivity. Qed.

Lemma getBound_outcome request key default :
  (exists n, _getBound repr (args request) key default = Returned n /\
             ~ repeated key request /\ ~ notAnInteger key request) \/
  (exists message,
      _getBound repr (args request) key default = Raised (paginationError message) /\
      (repeated key request \/ notAnInteger key request)).
Proof.
  rewrite getBound_cases. unfold repeated, notAnInteger.
  destruct (valuesOf key (queryPairs request)) as [|v [|v' l]] eqn:Hv.
  - left. eexists. split; [reflexivity|]. split.
    + simpl. lia.
    + intros (value & [=] & _).
  - destruct (PyString.to_Z v) as [n|] eqn:Hn.
    + left. eexists. split; [reflexivity|]. split.
      * simpl. lia.
      * intros (value & [= <-] & Hnone). congruence.
    + right. eexists. split; [reflexivity|]. right. eauto.
  - right. eexists. split; [reflexivity|]. left. simpl. lia.
Qed.

Lemma getBounds_outcome request (w : world C E) :
  (exists start stop, _getBounds repr request w = (Returned (start, stop), w) /\
                      ~ unresolved request) \/
  (exists message, _getBounds repr request w = (Raised (paginationError message), w) /\
                   unresolved request).
Proof.
  rewrite getBounds_cases. unfold unresolved.
  destruct (getBound_outcome request "start" 0) as [(a & -> & Ha1 & Ha2)|(m & -> & Ha)];
    simpl.
  - destruct (getBound_outcome request "stop" (pageSize (collection w)))
      as [(b & -> & Hb1 & Hb2)|(m & -> & Hb)]; simpl.
    + left. exists a, b. split; [reflexivity|]. tauto.
    + right. exists m. split; [reflexivity|]. tauto.
  - right. exists m. split; [reflexivity|]. tauto.
Qed.

Lemma getPaginationURLs_cases thisURL start stop (w : world C E) :
  _getPaginationURLs repr thisURL start stop w =
    (if stop - start <? 0 then
       Raised (paginationError "Requested page size is negative")
     else if stop - start >? maxPageSize (collection w) then
       Raised (paginationError "Requested page size too large")
     else
       Returned
         (if negb (Z.max 0 (start - (stop - start)) =? start)
          then Some (buildURL thisURL (Z.max 0 (start - (stop - start))) start)
          else None,
          Some (buildURL thisURL stop (stop + (stop - start)))), w).
Proof.
  unfold _getPaginationURLs, bind, lift, attribute, ret.
  destruct (stop - start <? 0); [reflexivity|].
  destruct (stop - start >? maxPageSize (collection w)); reflexivity.
Qed.

(** C7: resolving the bounds and links of a collection GET raises a
    pagination error, with status 400, exactly when [start] or
    [stop] is sent more than once, or is sent with a value that is
    no integer, or the width of the resolved window is negative or
    above [maxPageSize]; in every other case nothing is raised. *)
Theorem pagination_error_iff request (w : world C E) :
  let r := fst (render_GET_window repr request w) in
  (isPaginationError r <-> unresolved request \/ badWidth repr request w) /\
  (~ (unresolved request \/ badWidth repr request w) -> exists window, r = Returned window).
Proof.
  unfold render_GET_window, bind, badWidth.
  destruct (getBounds_outcome request w) as [(a & b & -> & Hres)|(m & -> & Hun)];
    simpl.
  - rewrite getPaginationURLs_cases.
    destruct (b - a <? 0) eqn:Hneg; simpl.
    + apply Z.ltb_lt in Hneg. split.
      * split; [|intros _; apply paginationError_is].
        intros _. right. exists a, b. split; [reflexivity|]. lia.
      * intros Hno. exfalso. apply Hno. right. exists a, b.
        split; [reflexivity|]. lia.
    + apply Z.ltb_ge in Hneg.
      destruct (b - a >? maxPageSize (collection w)) eqn:Hbig; simpl.
      * apply Z.gtb_lt in Hbig. split.
        -- split; [|intros _; apply paginationError_is].
           intros _. right. exists a, b. split; [reflexivity|]. lia.
        -- intros Hno. exfalso. apply Hno. right. exists a, b.
           split; [reflexivity|]. lia.
      * assert (Hfit : b - a <= maxPageSize (collection w)).
        { rewrite Z.gtb_ltb in Hbig. apply Z.ltb_ge in Hbig. exact Hbig. }
        split.
        -- split.
           ++ intros (e & [=] & _).
           ++ intros [Hun|(a' & b' & [= <- <-] & Hw)]; [contradiction|lia].
        -- intros _. eexists. reflexivity.
  - split.
    + split; [intros _; left; exact Hun|intros _; apply paginationError_is].
    + intros Hno. exfalso. apply Hno. left. exact Hun.
Qed.
End PaginationProperties.

(** ** Integers as text *)

Section IntegerText.
Import PyString.

Lemma lstrip_head p c s : p c = false -> lstrip p (String c s) = String c s.
Proof. intros Hc. simpl. rewrite Hc. reflexivity. Qed.

Lemma rstrip_none p s : allChars (fun c => negb (p c)) s = true -> rstrip p s = s.
Proof.
  induction s as [|c s IH]; simpl; [reflexivity|].
  intros Hall. apply andb_true_iff in Hall as [Hc Hs].
  rewrite (IH Hs). apply negb_true_iff in Hc. rewrite Hc.
  destruct s; reflexivity.
Qed.

Lemma strip_with_none p s : allChars (fun c => negb (p c)) s = true -> strip_with p s = s.
Proof.
  intros Hall. unfold strip_with. destruct s as [|c s]; [reflexivity|].
  pose proof Hall as Hall'. simpl in Hall'. apply andb_true_iff in Hall' as [Hc _].
  apply negb_true_iff in Hc. rewrite (lstrip_head _ _ _ Hc).
  apply rstrip_none. assumption.
Qed.

Lemma allChars_weaken (p q : ascii -> bool) s :
  (forall c, p c = true -> q c = true) -> allChars p s = true -> allChars q s = true.
Proof.
  intros Hpq. induction s as [|c s IH]; simpl; [reflexivity|].
  intros Hall. apply andb_true_iff in Hall as [Hc Hs].
  rewrite (Hpq _ Hc), (IH Hs). reflexivity.
Qed.

Lemma numeral_not_space c : isNumeral c = true -> negb (isspace c) = true.
Proof.
  destruct c as [[|] [|] [|] [|] [|] [|] [|] [|]]; vm_compute; congruence.
Qed.

Lemma uint_text_numerals d : allChars isNumeral (NilEmpty.string_of_uint d) = true.
Proof. induction d; simpl; try rewrite IHd; reflexivity. Qed.

Lemma uint_text_head d :
  d <> Decimal.Nil ->
  exists c s, NilEmpty.string_of_uint d = String c s /\ isSign c = false.
Proof.
  destruct d; intros Hd; try congruence; simpl; eexists _, _; split; reflexivity.
Qed.

Lemma uint_text_parse d :
  d <> Decimal.Nil ->
  NilZero.uint_of_string (NilEmpty.string_of_uint d) = Some d.
Proof.
  intros Hd. pose proof (NilZero.usu d Hd) as Hu.
  unfold NilZero.string_of_uint in Hu. destruct d; try congruence; exact Hu.
Qed.

Lemma to_Z_unsigned d :
  d <> Decimal.Nil -> to_Z (NilEmpty.string_of_uint d) = Some (Z.of_uint d).
Proof.
  intros Hd. unfold to_Z, strip.
  rewrite strip_with_none
    by (eapply allChars_weaken; [apply numeral_not_space|apply uint_text_numerals]).
  destruct (uint_text_head d Hd) as (c & s & Hs & Hc).
  pose proof (uint_text_parse d Hd) as Hp. rewrite Hs in *.
  unfold isSign in Hc. apply orb_false_iff in Hc as [-> ->].
  rewrite Hp. reflexivity.
Qed.

Lemma to_Z_negative d :
  d <> Decimal.Nil ->
  to_Z (String "-" (NilEmpty.string_of_uint d)) = Some (- Z.of_uint d).
Proof.
  intros Hd. unfold to_Z, strip.
  rewrite strip_with_none.
  - simpl. rewrite (uint_text_parse d Hd). reflexivity.
  - simpl. eapply allChars_weaken; [apply numeral_not_space|apply uint_text_numerals].
Qed.

(** [int(str(n)) == n] *)
Lemma to_Z_of_Z n : to_Z (of_Z n) = Some n.
Proof.
  destruct n as [|p|p]; [reflexivity| |].
  - unfold of_Z. simpl. unfold NilZero.string_of_uint.
    pose proof (DecimalPos.Unsigned.to_uint_nonnil p) as Hd.
    destruct (Pos.to_uint p) eqn:Hp; try congruence; rewrite <- Hp in *;
      rewrite to_Z_unsigned by assumption; unfold Z.of_uint;
      rewrite DecimalPos.Unsigned.of_to; reflexivity.
  - unfold of_Z. simpl. unfold NilZero.string_of_uint.
    pose proof (DecimalPos.Unsigned.to_uint_nonnil p) as Hd.
    destruct (Pos.to_uint p) eqn:Hp; try congruence; rewrite <- Hp in *;
      rewrite to_Z_negative by assumption; unfold Z.of_uint;
      rewrite DecimalPos.Unsigned.of_to; reflexivity.
Qed.
End IntegerText.

(** ** Links to the neighbouring pages *)

Section LinkProperties.
Context {C E : Type} `{Backing C E}.
Variable repr : pyval -> string.

(** The query [buildURL] writes, and the address it is put into. *)
Lemma buildURL_query thisURL start stop :
  buildURL thisURL start stop =
    urlunsplit (MkUrl (scheme thisURL) (netloc thisURL) (path thisURL)
                      ("start=" +:+ PyString.of_Z start +:+ "&stop=" +:+ PyString.of_Z stop)
                      "").
Proof. reflexivity. Qed.

(** A request that follows a link built for [[start, stop)] resolves
    to these bounds again. *)
Lemma follow_link request (w : world C E) start stop :
  queryPairs request = [("start", PyString.of_Z start); ("stop", PyString.of_Z stop)] ->
  _getBounds repr request w = (Returned (start, stop), w).
Proof.
  intros Hq. rewrite getBounds_cases, !getBound_cases, Hq. simpl.
  rewrite !to_Z_of_Z. reflexivity.
Qed.

(** C4, as the code has it: for a window [[start, stop)] whose width
    is between 0 and [maxPageSize], the next link is built for
    [[stop, stop + width)]; the previous link, when there is one, is
    built for [[max(0, start - width), start)]; and there is none
    exactly when that window is empty, which is when [start] is 0, or
    the width is 0 and [start] is positive. *)
Theorem pagination_links thisURL start stop (w : world C E) :
  0 <= stop - start <= maxPageSize (collection w) ->
  exists prevURL,
    _getPaginationURLs repr thisURL start stop w =
      (Returned (prevURL, Some (buildURL thisURL stop (stop + (stop - start)))), w) /\
    (prevURL = None <-> start = 0 \/ (stop - start = 0 /\ 0 < start)) /\
    (prevURL <> None ->
     prevURL = Some (buildURL thisURL (Z.max 0 (start - (stop - start))) start)).
Proof.
  intros [Hlo Hhi]. rewrite getPaginationURLs_cases.
  replace (stop - start <? 0) with false by (symmetry; apply Z.ltb_ge; lia).
  replace (stop - start >? maxPageSize (collection w)) with false
    by (symmetry; rewrite Z.gtb_ltb; apply Z.ltb_ge; lia).
  eexists. split; [reflexivity|].
  destruct (Z.max 0 (start - (stop - start)) =? start) eqn:Heq; simpl.
  - apply Z.eqb_eq in Heq. split; [|congruence].
    split; [intros _; lia|reflexivity].
  - apply Z.eqb_neq in Heq. split; [|reflexivity].
    split; [discriminate|intros; lia].
Qed.
End LinkProperties.

Lemma pagination_links_witness :
  0 <= 6 - 3 <= maxPageSize (collection (Store.fresh Examples.twoThings)) /\
  exists prevURL,
    _getPaginationURLs Store.reprExample Examples.things 3 6 (Store.fresh Examples.twoThings) =
      (Returned (prevURL, Some (buildURL Examples.things 6 (6 + (6 - 3)))),
       Store.fresh Examples.twoThings) /\
    (prevURL = None <-> 3 = 0 \/ (6 - 3 = 0 /\ 0 < 3)) /\
    (prevURL <> None ->
     prevURL = Some (buildURL Examples.things (Z.max 0 (3 - (6 - 3))) 3)).
Proof.
  assert (Hw : 0 <= 6 - 3 <= maxPageSize (collection (Store.fresh Examples.twoThings)))
    by (simpl; lia).
  split; [exact Hw|].
  exact (pagination_links Store.reprExample Examples.things 3 6
           (Store.fresh Examples.twoThings) Hw).
Defined.

(** C4 as stated fails for the window [[5, 5)]: its width 0 is within
    the limits, [start] is not 0, and yet no previous link is built. *)
Lemma previous_link_absent_at_5_5 :
  0 <= 5 - 5 <= maxPageSize (collection (Store.fresh Examples.twoThings)) /\
  fst (_getPaginationURLs Store.reprExample Examples.things 5 5
         (Store.fresh Examples.twoThings))
  = Returned (None, Some "http://localhost/things?start=5&stop=5") /\
  5 <> 0.
Proof. split; [simpl; lia|]. split; [reflexivity|lia]. Qed.

(** C8 on two requests to a collection with pages of three: without
    parameters the bounds are [(0, 3)]; with [start=4] only they are
    [(4, 3)], not [(4, 7)]. *)
Lemma getBounds_defaults_witness :
  _getBounds Store.reprExample Examples.plainGet (Store.fresh Examples.twoThings)
  = (Returned (0, 3), Store.fresh Examples.twoThings) /\
  _getBounds Store.reprExample
             (Examples.mkRequest "GET" [] [("start", "4")] (RawText ""))
             (Store.fresh Examples.twoThings)
  = (Returned (4, 3), Store.fresh Examples.twoThings).
Proof.
  split.
  - destruct (getBounds_defaults Store.reprExample Examples.plainGet
                (Store.fresh Examples.twoThings)) as (Hstart & _ & _).
    apply Hstart; reflexivity.
  - destruct (getBounds_defaults Store.reprExample
                (Examples.mkRequest "GET" [] [("start", "4")] (RawText ""))
                (Store.fresh Examples.twoThings)) as (_ & Hstop & _).
    apply Hstop; reflexivity.
Defined.

(** ** Error reports *)

Section ReportProperties.
Context {C E : Type} `{Backing C E}.
Variable repr : pyval -> string.

Lemma jsonEncode_error e :
  call serializers.jsonEncode (ErrorObj e) = Returned (errorBody e).
Proof. reflexivity. Qed.

Lemma reportErrors_caught {A} (h : handler A) (self : EncodingResource)
      request (w w' : world C E) e :
  negotiated repr h self request w = (Raised (Serializable e), w') ->
  reportErrors repr h self request w = (Returned (ErrorReport (errorBody e)), reported e w').
Proof. intros Hn. unfold reportErrors. rewrite Hn. reflexivity. Qed.

(** The report of a serializable error, whatever the wrapped handler:
    the reply, the status and the body. *)
Lemma reportErrors_serializes {A} (h : handler A) (self : EncodingResource)
        request (w w' : world C E) e :
  negotiated repr h self request w = (Raised (Serializable e), w') ->
  reportErrors repr h self request w = (Returned (ErrorReport (errorBody e)), reported e w') /\
  status (reported e w') = responseCode e /\
  call serializers.jsonEncode (ErrorObj e) = Returned (errorBody e).
Proof.
  intros Hn. split; [apply reportErrors_caught; exact Hn|split; reflexivity].
Qed.

(** The two ways a handler with a decoder can fail: in the
    resolution, before the handler runs, or in the handler. *)
Lemma negotiated_decoder_unresolved {A} (m : Decoder -> M C E A) self request
      (w w' : world C E) e :
  _getDecoder repr self request w = (Raised e, w') ->
  negotiated repr (NeedsDecoder m) self request w = (Raised e, w').
Proof. intros Hd. simpl. unfold withDecoder, bind. rewrite Hd. reflexivity. Qed.

Lemma negotiated_decoder_resolved {A} (m : Decoder -> M C E A) self request
      (w w' : world C E) decoder :
  _getDecoder repr self request w = (Returned decoder, w') ->
  negotiated repr (NeedsDecoder m) self request w = m decoder w'.
Proof. intros Hd. simpl. unfold withDecoder, bind. rewrite Hd. reflexivity. Qed.



(** A handler that completes is not touched, and an exception that is
    no serializable error is not caught. *)
Lemma reportErrors_completed {A} (h : handler A) self request (w w' : world C E) a :
  negotiated repr h self request w = (Returned a, w') ->
  reportErrors repr h self request w = (Returned (Completed a), w').
Proof. intros Hn. unfold reportErrors. rewrite Hn. reflexivity. Qed.

Lemma reportErrors_fault {A} (h : handler A) self request (w w' : world C E) x :
  negotiated repr h self request w = (Raised x, w') ->
  (forall e, x <> Serializable e) ->
  reportErrors repr h self request w = (Raised x, w').
Proof.
  intros Hn Hx. unfold reportErrors. rewrite Hn.
  destruct x; try reflexivity. exfalso. eapply Hx. reflexivity.
Qed.

(** [_missingElement] always reports the 404 error that names the
    element. *)
Lemma missingElement_reports self request element (w : world C E) :
  let e := MkError MissingResourceError ("no such element " +:+ element) [] in
  _missingElement repr self request element w =
    (Returned (ErrorReport (errorBody e)), reported e w) /\
  responseCode e = http.NOT_FOUND.
Proof. split; reflexivity. Qed.
End ReportProperties.

(** ** Children of a collection: deleting and creating *)

Section ChildProperties.
Context {C E : Type} `{Backing C E}.
Variable repr : pyval -> string.
Variable self : EncodingResource.

Lemma getChild_try_delete path request (w : world C E) :
  method request = "DELETE" -> postpath request = [] ->
  getChild_try path request w =
    match removeByIdentifier path (collection w) with
    | (Returned _, c) => (Returned (Completed Deleted), after (RemoveByIdentifier path) c w)
    | (Raised e, c) => (Raised e, after (RemoveByIdentifier path) c w)
    end.
Proof.
  intros Hm Hp. unfold getChild_try, bind, invoke, ret, after. rewrite Hm, Hp. simpl.
  destruct (removeByIdentifier path (collection w)) as [[u|e] c]; reflexivity.
Qed.

(** On the collection in memory, an identifier no element carries
    makes the removal raise [KeyError] and leaves the collection as
    it is; an identifier some element carries is removed. *)
Lemma store_remove_absent identifier (c : Store.t) :
  List.find (Store.hasIdentifier identifier) (Store.elements c) = None ->
  removeByIdentifier identifier c = (Raised KeyError, c).
Proof. intros Hf. simpl. unfold Store.storeRemove. rewrite Hf. reflexivity. Qed.

Lemma store_remove_present identifier (c : Store.t) e :
  List.find (Store.hasIdentifier identifier) (Store.elements c) = Some e ->
  exists c', removeByIdentifier identifier c = (Returned tt, c') /\
             List.find (Store.hasIdentifier identifier) (Store.elements c') = None.
Proof.
  intros Hf. simpl. unfold Store.storeRemove. rewrite Hf. eexists. split; [reflexivity|].
  simpl. destruct (List.find _ (List.filter _ _)) as [e'|] eqn:Hf'; [|reflexivity].
  apply find_some in Hf' as [Hin Hid]. apply filter_In in Hin as [_ Hno].
  rewrite Hid in Hno. discriminate.
Qed.

(** C3, as the code has it: a DELETE on the last path segment invokes
    [removeByIdentifier] on the collection first, and nothing else.
    When that raises [KeyError], as for an identifier the collection
    does not hold, the reply is the 404 report naming the identifier;
    when it returns, the reply is [Deleted], which renders as status
    204 with an empty body. No element is looked up in either case. *)
Theorem getChild_delete path request (w : world C E) :
  method request = "DELETE" -> postpath request = [] ->
  (forall c, removeByIdentifier path (collection w) = (Raised KeyError, c) ->
     getChild repr self path request w =
       (Returned (ErrorReport (errorBody (missingResource path))),
        reported (missingResource path) (after (RemoveByIdentifier path) c w)) /\
     responseCode (missingResource path) = http.NOT_FOUND) /\
  (forall c, removeByIdentifier path (collection w) = (Returned tt, c) ->
     getChild repr self path request w =
       (Returned (Completed Deleted), after (RemoveByIdentifier path) c w) /\
     Deleted_render (after (RemoveByIdentifier path) c w) =
       (Returned (RawText ""),
        MkWorld c (invoked w ++ [RemoveByIdentifier path]) http.NO_CONTENT
                (responseHeaders w))) /\
  (forall r w', getChild repr self path request w = (r, w') ->
     invoked w' = invoked w ++ [RemoveByIdentifier path]).
Proof.
  intros Hm Hp. split; [|split].
  - intros c Hr. split; [|reflexivity].
    unfold getChild. rewrite (getChild_try_delete _ _ _ Hm Hp), Hr, Hm. reflexivity.
  - intros c Hr. split; [|reflexivity].
    unfold getChild. rewrite (getChild_try_delete _ _ _ Hm Hp), Hr. reflexivity.
  - intros r w'. unfold getChild. rewrite (getChild_try_delete _ _ _ Hm Hp), Hm.
    destruct (removeByIdentifier path (collection w)) as [[u|e] c].
    + intros [= <- <-]. reflexivity.
    + destruct e; intros [= <- <-]; reflexivity.
Qed.
End ChildProperties.

Lemma getChild_delete_witness :
  getChild Store.reprExample jsonResource "42" Examples.delete (Store.fresh Examples.twoThings)
  = (Returned (ErrorReport (errorBody (missingResource "42"))),
     reported (missingResource "42")
       (after (RemoveByIdentifier "42") Examples.twoThings (Store.fresh Examples.twoThings))) /\
  getChild Store.reprExample jsonResource "a" Examples.delete (Store.fresh Examples.twoThings)
  = (Returned (Completed Deleted),
     after (RemoveByIdentifier "a")
       (Store.withElements Examples.twoThings [Examples.thing "b"])
       (Store.fresh Examples.twoThings)).
Proof.
  split.
  - destruct (getChild_delete Store.reprExample jsonResource "42" Examples.delete
                (Store.fresh Examples.twoThings) eq_refl eq_refl) as (Habsent & _ & _).
    apply (Habsent Examples.twoThings). reflexivity.
  - destruct (getChild_delete Store.reprExample jsonResource "a" Examples.delete
                (Store.fresh Examples.twoThings) eq_refl eq_refl) as (_ & Hpresent & _).
    apply (Hpresent (Store.withElements Examples.twoThings [Examples.thing "b"])).
    reflexivity.
Defined.

(** C3 as stated fails for DELETE at ["42"] on a collection that holds
    ["a"] and ["b"] only: the 404 report is the reply, but
    [removeByIdentifier] has been invoked on the collection. *)
Lemma delete_absent_invokes_removal :
  List.find (Store.hasIdentifier "42") (Store.elements Examples.twoThings) = None /\
  fst (getChild Store.reprExample jsonResource "42" Examples.delete
         (Store.fresh Examples.twoThings))
  = Returned (ErrorReport (errorBody (missingResource "42"))) /\
  invoked (snd (getChild Store.reprExample jsonResource "42" Examples.delete
                  (Store.fresh Examples.twoThings)))
  = [RemoveByIdentifier "42"].
Proof. repeat split; reflexivity. Qed.

Section CreateProperties.
Context {C E : Type} `{Backing C E}.
Variable repr : pyval -> string.

(** C5: a PUT that creates at [identifier]. Once the body is decoded
    and the element built, the value of its identifying attribute is
    compared with the identifier of the path. When they differ, the
    403 identifier error is raised with both values in its details,
    and [add] is not invoked: the only operation invoked is
    [createElementFromState], and the collection is as that left it.
    When they are equal, [add] is invoked with the element and, when
    it returns, the result is [Created], which renders as status 201
    with an empty body. *)
Theorem createElement_identifier request identifier decoder state element actual c1
        (w : world C E) :
  call decoder (content request) = Returned state ->
  createElementFromState state (collection w) = (Returned element, c1) ->
  getattr element (identifyingAttribute element) = Returned actual ->
  (py_ne actual (PyStr identifier) = true ->
     _createElement_body repr request (Some identifier) decoder w =
       (Raised (Serializable (identifierMismatch repr (PyStr identifier) actual)),
        after (CreateElementFromState state) c1 w) /\
     responseCode (identifierMismatch repr (PyStr identifier) actual) = http.FORBIDDEN) /\
  (py_ne actual (PyStr identifier) = false ->
     forall c2, add element c1 = (Returned tt, c2) ->
       _createElement_body repr request (Some identifier) decoder w =
         (Returned Created,
          after (Add element) c2 (after (CreateElementFromState state) c1 w)) /\
       Created_render (after (Add element) c2 (after (CreateElementFromState state) c1 w)) =
         (Returned (RawText ""),
          MkWorld c2 ((invoked w ++ [CreateElementFromState state]) ++ [Add element])
                  http.CREATED (responseHeaders w))).
Proof.
  intros Hd Hc Ha. split.
  - intros Hne. split; [|reflexivity].
    unfold _createElement_body, bind, lift, invoke. rewrite Hd, Hc. simpl.
    rewrite Ha, Hne. reflexivity.
  - intros Heq c2 Hadd. split; [|reflexivity].
    unfold _createElement_body, bind, lift, invoke, ret. rewrite Hd, Hc. simpl.
    rewrite Ha, Heq. simpl. rewrite Hadd. reflexivity.
Qed.

(** Through [reportErrors], the mismatch is the 403 report and the
    match is [Created]. *)
Lemma createElement_reports (self : EncodingResource) request identifier decoder
      state element actual c1 (w : world C E) :
  _getDecoder repr self request w = (Returned decoder, w) ->
  call decoder (content request) = Returned state ->
  createElementFromState state (collection w) = (Returned element, c1) ->
  getattr element (identifyingAttribute element) = Returned actual ->
  py_ne actual (PyStr identifier) = true ->
  _createElement repr self request (Some identifier) w =
    (Returned (ErrorReport (errorBody (identifierMismatch repr (PyStr identifier) actual))),
     reported (identifierMismatch repr (PyStr identifier) actual)
              (after (CreateElementFromState state) c1 w)).
Proof.
  intros Hg Hd Hc Ha Hne. unfold _createElement.
  apply reportErrors_caught.
  rewrite (negotiated_decoder_resolved _ _ _ _ _ _ _ Hg).
  unfold _createElement_body, bind, lift, invoke. rewrite Hd, Hc. simpl.
  rewrite Ha, Hne. reflexivity.
Qed.
End CreateProperties.

Lemma createElement_identifier_witness :
  _createElement_body Store.reprExample (Examples.put (PyInt 7)) (Some "42")
                      serializers.jsonDecode (Store.fresh Examples.twoThings)
  = (Raised (Serializable (identifierMismatch Store.reprExample (PyStr "42") (PyInt 7))),
     after (CreateElementFromState (PyDict [("name", PyInt 7)])) Examples.twoThings
           (Store.fresh Examples.twoThings)) /\
  _createElement_body Store.reprExample (Examples.put (PyStr "42")) (Some "42")
                      serializers.jsonDecode (Store.fresh Examples.twoThings)
  = (Returned Created,
     after (Add (Store.MkElement "name" [("name", PyStr "42")]))
           (Store.withElements Examples.twoThings
              [Examples.thing "a"; Examples.thing "b";
               Store.MkElement "name" [("name", PyStr "42")]])
           (after (CreateElementFromState (PyDict [("name", PyStr "42")])) Examples.twoThings
                  (Store.fresh Examples.twoThings))).
Proof.
  split.
  - assert (Hd : call serializers.jsonDecode (content (Examples.put (PyInt 7)))
                 = Returned (PyDict [("name", PyInt 7)])) by reflexivity.
    assert (Hc : createElementFromState (PyDict [("name", PyInt 7)])
                   (collection (Store.fresh Examples.twoThings))
                 = (Returned (Store.MkElement "name" [("name", PyInt 7)]),
                    Examples.twoThings)) by reflexivity.
    assert (Ha : getattr (Store.MkElement "name" [("name", PyInt 7)])
                   (identifyingAttribute (Store.MkElement "name" [("name", PyInt 7)]))
                 = Returned (PyInt 7)) by reflexivity.
    destruct (createElement_identifier Store.reprExample _ "42" _ _ _ _ _ _ Hd Hc Ha)
      as [Hmis _].
    apply (Hmis eq_refl).
  - assert (Hd : call serializers.jsonDecode (content (Examples.put (PyStr "42")))
                 = Returned (PyDict [("name", PyStr "42")])) by reflexivity.
    assert (Hc : createElementFromState (PyDict [("name", PyStr "42")])
                   (collection (Store.fresh Examples.twoThings))
                 = (Returned (Store.MkElement "name" [("name", PyStr "42")]),
                    Examples.twoThings)) by reflexivity.
    assert (Ha : getattr (Store.MkElement "name" [("name", PyStr "42")])
                   (identifyingAttribute (Store.MkElement "name" [("name", PyStr "42")]))
                 = Returned (PyStr "42")) by reflexivity.
    destruct (createElement_identifier Store.reprExample _ "42" _ _ _ _ _ _ Hd Hc Ha)
      as [_ Hok].
    assert (Hadd : add (Store.MkElement "name" [("name", PyStr "42")]) Examples.twoThings
                   = (Returned tt,
                      Store.withElements Examples.twoThings
                        [Examples.thing "a"; Examples.thing "b";
                         Store.MkElement "name" [("name", PyStr "42")]])) by reflexivity.
    apply (Hok eq_refl _ Hadd).
Defined.

(** ** Listing a collection *)

Section ListingProperties.
Context {C E : Type} `{Backing C E}.
Variable repr : pyval -> string.

(** [render_GET] once the bounds are resolved and within the limits,
    the slice is read and every element gives its state. *)
Lemma render_GET_body_listing request encoder (w : world C E)
      start stop elements c1 results :
  _getBounds repr request w = (Returned (start, stop), w) ->
  0 <= stop - start <= maxPageSize (collection w) ->
  getslice start stop (collection w) = (Returned elements, c1) ->
  toStates (exposedElementAttributes c1) elements = Returned results ->
  render_GET_body repr request encoder w =
    (call encoder
       (Plain (envelope results
                 (if negb (Z.max 0 (start - (stop - start)) =? start)
                  then Some (buildURL (prePathURL request)
                               (Z.max 0 (start - (stop - start))) start)
                  else None)
                 (if stop - start >? Z.of_nat (length elements)
                  then None
                  else Some (buildURL (prePathURL request) stop (stop + (stop - start)))))),
     after (GetSlice start stop) c1 w).
Proof.
  intros Hb [Hlo Hhi] Hs Ht. unfold render_GET_body, bind. rewrite Hb. simpl.
  rewrite getPaginationURLs_cases.
  replace (stop - start <? 0) with false by (symmetry; apply Z.ltb_ge; lia).
  replace (stop - start >? maxPageSize (collection w)) with false
    by (symmetry; rewrite Z.gtb_ltb; apply Z.ltb_ge; lia).
  unfold invoke, attribute, lift. rewrite Hs. simpl. rewrite Ht. simpl.
  reflexivity.
Qed.

(** Fewer elements than the window is wide: no next link. *)
Lemma render_GET_body_exhausted request encoder (w : world C E)
      start stop elements c1 results :
  _getBounds repr request w = (Returned (start, stop), w) ->
  0 <= stop - start <= maxPageSize (collection w) ->
  getslice start stop (collection w) = (Returned elements, c1) ->
  toStates (exposedElementAttributes c1) elements = Returned results ->
  Z.of_nat (length elements) < stop - start ->
  exists prevURL,
    render_GET_body repr request encoder w =
      (call encoder (Plain (envelope results prevURL None)),
       after (GetSlice start stop) c1 w).
Proof.
  intros Hb Hw Hs Ht Hfew.
  rewrite (render_GET_body_listing _ _ _ _ _ _ _ _ Hb Hw Hs Ht).
  replace (stop - start >? Z.of_nat (length elements)) with true
    by (symmetry; apply Z.gtb_lt; lia).
  eexists. reflexivity.
Qed.
End ListingProperties.

Lemma pyslice_all {A} (l : list A) stop :
  Z.of_nat (length l) <= stop -> Store.pyslice l 0 stop = l.
Proof.
  intros Hlen. unfold Store.pyslice, Store.clamp.
  replace (0 <? 0) with false by reflexivity.
  replace (stop <? 0) with false by (symmetry; apply Z.ltb_ge; lia).
  rewrite (Z.min_l 0) by lia. rewrite (Z.min_r stop) by lia.
  rewrite Z.sub_0_r, Nat2Z.id. simpl. apply firstn_all.
Qed.

(** A collection in memory with fewer elements than a page, and a
    page no wider than the maximum: a GET without parameters lists
    every element, with no previous and no next link. *)
Lemma render_GET_body_short_store repr request encoder (w : world Store.t Store.element)
      results :
  queryPairs request = [] ->
  Store.count (collection w) < pageSize (collection w) ->
  pageSize (collection w) <= maxPageSize (collection w) ->
  toStates (Store.exposed (collection w)) (Store.elements (collection w)) = Returned results ->
  render_GET_body repr request encoder w =
    (call encoder (Plain (envelope results None None)),
     after (GetSlice 0 (pageSize (collection w))) (collection w) w).
Proof.
  intros Hq Hcount Hmax Ht.
  assert (Hb : _getBounds repr request w = (Returned (0, pageSize (collection w)), w)).
  { rewrite getBounds_cases, !getBound_cases, Hq. reflexivity. }
  pose proof (Zle_0_nat (length (Store.elements (collection w)))) as Hpos.
  unfold Store.count in Hcount.
  assert (Hs : getslice 0 (pageSize (collection w)) (collection w)
               = (Returned (Store.elements (collection w)), collection w)).
  { simpl. unfold Store.storeGetslice. rewrite pyslice_all by (simpl in *; lia).
    reflexivity. }
  rewrite (render_GET_body_listing repr request encoder w _ _ _ _ _ Hb
             ltac:(lia) Hs Ht).
  rewrite Z.sub_0_r.
  replace (pageSize (collection w) >? Z.of_nat (length (Store.elements (collection w))))
    with true by (symmetry; apply Z.gtb_lt; lia).
  replace (Z.max 0 (0 - pageSize (collection w)) =? 0) with true
    by (symmetry; apply Z.eqb_eq; lia).
  reflexivity.
Qed.

(** C9, as the code has it: when the slice holds fewer elements than
    the window is wide, the envelope has no next link; and for a
    collection in memory with [count < pageSize <= maxPageSize], a GET
    without parameters lists all elements with no next link. *)
Theorem collection_GET_exhausted :
  (forall (C E : Type) (B : Backing C E) repr request encoder (w : world C E)
          start stop elements c1 results,
     _getBounds repr request w = (Returned (start, stop), w) ->
     0 <= stop - start <= maxPageSize (collection w) ->
     getslice start stop (collection w) = (Returned elements, c1) ->
     toStates (exposedElementAttributes c1) elements = Returned results ->
     Z.of_nat (length elements) < stop - start ->
     exists prevURL,
       render_GET_body repr request encoder w =
         (call encoder (Plain (envelope results prevURL None)),
          after (GetSlice start stop) c1 w)) /\
  (forall repr request encoder (w : world Store.t Store.element) results,
     queryPairs request = [] ->
     Store.count (collection w) < pageSize (collection w) ->
     pageSize (collection w) <= maxPageSize (collection w) ->
     toStates (Store.exposed (collection w)) (Store.elements (collection w))
       = Returned results ->
     render_GET_body repr request encoder w =
       (call encoder (Plain (envelope results None None)),
        after (GetSlice 0 (pageSize (collection w))) (collection w) w)).
Proof.
  split.
  - intros C E B repr request encoder w start stop elements c1 results.
    apply render_GET_body_exhausted.
  - apply render_GET_body_short_store.
Qed.

Lemma collection_GET_exhausted_witness :
  render_GET_body Store.reprExample Examples.plainGet serializers.jsonEncode
                  (Store.fresh Examples.twoThings)
  = (Returned (JsonText (envelope [PyDict [("name", PyStr "a")];
                                   PyDict [("name", PyStr "b")]] None None)),
     after (GetSlice 0 3) Examples.twoThings (Store.fresh Examples.twoThings)).
Proof.
  destruct collection_GET_exhausted as [_ Hshort].
  apply (Hshort Store.reprExample Examples.plainGet serializers.jsonEncode
                (Store.fresh Examples.twoThings)
                [PyDict [("name", PyStr "a")]; PyDict [("name", PyStr "b")]]).
  - reflexivity.
  - vm_compute. reflexivity.
  - vm_compute. discriminate.
  - reflexivity.
Defined.

(** C9 as stated fails for a collection with pages of ten and at most
    five elements per page: it is empty, so [count < pageSize], and
    the GET without parameters ends in a pagination error. *)
Lemma short_collection_GET_fails :
  Store.count Examples.narrow < pageSize Examples.narrow /\
  fst (render_GET_body Store.reprExample Examples.plainGet serializers.jsonEncode
         (Store.fresh Examples.narrow))
  = Raised (paginationError "Requested page size too large") /\
  fst (render_GET Store.reprExample jsonResource Examples.plainGet
         (Store.fresh Examples.narrow))
  = Returned (ErrorReport
                (errorBody (MkError PaginationError "Requested page size too large" []))).
Proof. split; [vm_compute; reflexivity|]. split; reflexivity. Qed.

(** C7 on three requests to a collection with at most ten elements
    per page: [start] sent twice, [stop=abc], and a window of width
    twenty. *)
Lemma pagination_error_iff_witness :
  isPaginationError
    (fst (render_GET_window Store.reprExample
            (Examples.mkRequest "GET" [] [("start", "0"); ("start", "5")] (RawText ""))
            (Store.fresh Examples.twoThings))) /\
  isPaginationError
    (fst (render_GET_window Store.reprExample
            (Examples.mkRequest "GET" [] [("stop", "abc")] (RawText ""))
            (Store.fresh Examples.twoThings))) /\
  isPaginationError
    (fst (render_GET_window Store.reprExample
            (Examples.mkRequest "GET" [] [("start", "0"); ("stop", "20")] (RawText ""))
            (Store.fresh Examples.twoThings))).
Proof.
  split; [|split].
  - apply (pagination_error_iff Store.reprExample
             (Examples.mkRequest "GET" [] [("start", "0"); ("start", "5")] (RawText ""))
             (Store.fresh Examples.twoThings)).
    left. left. unfold repeated. simpl. lia.
  - apply (pagination_error_iff Store.reprExample
             (Examples.mkRequest "GET" [] [("stop", "abc")] (RawText ""))
             (Store.fresh Examples.twoThings)).
    left. right. right. right. exists "abc". split; reflexivity.
  - apply (pagination_error_iff Store.reprExample
             (Examples.mkRequest "GET" [] [("start", "0"); ("stop", "20")] (RawText ""))
             (Store.fresh Examples.twoThings)).
    right. exists 0, 20. split; [reflexivity|]. right. simpl. lia.
Defined.

(** * Further properties *)

(** ** Header parsing, continued *)

Section ParseAcceptMore.
Import serializers.

Lemma split1_with_separator sep s :
  PyString.contains sep s = true -> exists a b, PyString.split1 sep s = [a; b].
Proof.
  induction s as [|c s IH]; simpl; [discriminate|].
  destruct (Ascii.eqb c sep) eqn:Hc; simpl.
  - intros _. eexists _, _. reflexivity.
  - intros Hs. destruct (IH Hs) as (a & b & ->). eexists _, _. reflexivity.
Qed.

Lemma parseParam_with_equals param :
  PyString.contains "=" param = true -> exists kv, parseParam param = Returned kv.
Proof.
  intros Hc. unfold parseParam.
  destruct (split1_with_separator _ _ Hc) as (a & b & ->). simpl. eexists. reflexivity.
Qed.

Lemma parseParams_raised rawParams : forall params e,
  parseParams rawParams params = Raised e ->
  exists param, In param rawParams /\ PyString.contains "=" param = false.
Proof.
  induction rawParams as [|p rest IH]; simpl; intros params e; [discriminate|].
  destruct (PyString.contains "=" p) eqn:Hc.
  - destruct (parseParam_with_equals _ Hc) as (kv & ->). simpl.
    intros Hr. destruct (IH _ _ Hr) as (param & Hin & Hno). eauto.
  - intros _. exists p. split; [left; reflexivity|assumption].
Qed.

Lemma parseParts_raised parts : forall accepted e,
  parseParts parts accepted = Raised e ->
  exists part, In part parts /\ paramWithoutEquals part.
Proof.
  induction parts as [|part rest IH]; simpl; intros accepted e; [discriminate|].
  destruct (String.eqb (PyString.strip part) "").
  - intros Hr. destruct (IH _ _ Hr) as (p & Hin & Hbad). eauto.
  - destruct (PyString.split ";" (PyString.strip part)) as [|first rawParams] eqn:Hs.
    + exfalso. eapply split_nonempty; eassumption.
    + destruct (parseParams rawParams ∅) as [params|e'] eqn:Hp; simpl.
      * intros Hr. destruct (IH _ _ Hr) as (p & Hin & Hbad). eauto.
      * intros _. exists part. split; [left; reflexivity|].
        destruct (parseParams_raised _ _ _ Hp) as (param & Hin & Hno).
        exists param. rewrite Hs. simpl. split; assumption.
Qed.

(** X1: [_parseAccept] fails on exactly the headers that have a
    segment with a parameter without [=], and then with [ValueError];
    every other header is parsed. *)
Theorem parseAccept_raises_iff header :
  (forall e, _parseAccept header = Raised e <-> (e = ValueError /\ malformedAccept header)) /\
  (~ malformedAccept header -> exists accepted, _parseAccept header = Returned accepted).
Proof.
  assert (Hinv : forall e, _parseAccept header = Raised e -> malformedAccept header).
  { intros e Hr. unfold _parseAccept in Hr.
    destruct (parseParts_raised _ _ _ Hr) as (part & Hin & Hbad).
    exists part. split; assumption. }
  split.
  - intros e. split.
    + intros Hr. split; [eapply parseAccept_raises; eassumption|eapply Hinv; eassumption].
    + intros [-> Hbad]. apply parseAccept_malformed. assumption.
  - intros Hgood. destruct (_parseAccept header) as [accepted|e] eqn:Hp.
    + eexists. reflexivity.
    + exfalso. apply Hgood. eapply Hinv. reflexivity.
Qed.

Lemma parseParts_types parts : forall accepted result,
  parseParts parts accepted = Returned result ->
  List.map fst result =
    List.map fst accepted ++ List.map segmentType (List.filter nonBlank parts).
Proof.
  induction parts as [|part rest IH]; simpl; intros accepted result.
  - intros [= ->]. rewrite app_nil_r. reflexivity.
  - unfold nonBlank at 1. destruct (String.eqb (PyString.strip part) "") eqn:Hb; simpl.
    + apply IH.
    + destruct (PyString.split ";" (PyString.strip part)) as [|first rawParams] eqn:Hs;
        [discriminate|].
      destruct (parseParams rawParams ∅) as [params|e]; simpl; [|discriminate].
      intros Hr. rewrite (IH _ _ Hr), List.map_app. simpl.
      rewrite <- app_assoc. unfold segmentType. rewrite Hs. reflexivity.
Qed.

(** X2: when [_parseAccept] returns, the content types it lists are
    those of the segments that are not blank, in the order of the
    header, each stripped of surrounding whitespace: blank segments
    are skipped, nothing is reordered or merged. *)
Theorem parseAccept_types header accepted :
  _parseAccept header = Returned accepted ->
  List.map fst accepted = List.map segmentType (List.filter nonBlank (segments header)).
Proof. intros Hr. apply (parseParts_types _ _ _ Hr). Qed.
End ParseAcceptMore.

Lemma parseAccept_types_witness :
  List.map fst
    [("text/html", ({["q" := "0.5"]} : gmap string string));
     ("application/json", ∅); ("*/*", ∅)]
  = List.map segmentType
      (List.filter nonBlank (segments " text/html ; q=0.5,, application/json , */*")).
Proof.
  apply (parseAccept_types " text/html ; q=0.5,, application/json , */*"). reflexivity.
Defined.

(** ** Content negotiation, continued *)

Lemma lower_char_idempotent c :
  PyString.lower_char (PyString.lower_char c) = PyString.lower_char c.
Proof. destruct c as [[|] [|] [|] [|] [|] [|] [|] [|]]; reflexivity. Qed.

Lemma lower_idempotent s : PyString.lower (PyString.lower s) = PyString.lower s.
Proof.
  induction s as [|c s IH]; simpl; [reflexivity|].
  rewrite lower_char_idempotent, IH. reflexivity.
Qed.

Lemma firstAccepted_none {I O} (accepted : list string) (codecs : list (codec I O)) :
  firstAccepted accepted codecs = None <->
  forall t c, In t accepted -> In c codecs -> contentType c <> t.
Proof.
  induction accepted as [|t rest IH]; simpl.
  - split; [intros _ t c []|reflexivity].
  - destruct (List.find (fun c => String.eqb (contentType c) t) codecs) as [c0|] eqn:Hf.
    + split; [discriminate|]. intros Hno. exfalso.
      apply find_some in Hf as [Hin Heq]. apply String.eqb_eq in Heq.
      apply (Hno t c0); [left; reflexivity|assumption|assumption].
    + rewrite IH. split.
      * intros Hno t' c [<-|Hin] Hc.
        -- intros Heq. pose proof (find_none _ _ Hf _ Hc) as Hne. simpl in Hne.
           rewrite Heq, String.eqb_refl in Hne. discriminate.
        -- apply Hno; assumption.
      * intros Hno t' c Hin. apply Hno. right. assumption.
Qed.

Section NegotiationMore.
Context {C E : Type}.
Variable repr : pyval -> string.

(** [_getEncoder] by the outcome of the parse and of the two loops. *)
Lemma getEncoder_cases (self : EncodingResource) request (w : world C E) :
  _getEncoder repr self request w =
    match serializers._parseAccept (acceptOf request) with
    | Raised e => (Raised e, w)
    | Returned parsed =>
        match firstAccepted (acceptedTypes parsed) (encoders self) with
        | Some encoder => (Returned encoder, typed (contentType encoder) w)
        | None =>
            if existsb (String.eqb "*/*") (acceptedTypes parsed)
            then (Returned (defaultEncoder self),
                  typed (contentType (defaultEncoder self)) w)
            else (Raised (AttributeError "txyoga.errors" "UnacceptableRequest"), w)
        end
    end.
Proof.
  unfold _getEncoder, bind, lift. fold (acceptOf request).
  destruct (serializers._parseAccept (acceptOf request)) as [parsed|e]; [|reflexivity].
  fold (acceptedTypes parsed).
  destruct (firstAccepted (acceptedTypes parsed) (encoders self)); [reflexivity|].
  destruct (existsb (String.eqb "*/*") (acceptedTypes parsed)); reflexivity.
Qed.

(** X3: the parameters of the [Accept] header, its [q] values among
    them, play no part in the choice of the encoder: two requests
    whose headers list the same content types in the same order get
    the same result. *)
Theorem getEncoder_ignores_parameters (self : EncodingResource) request1 request2
        (w : world C E) parsed1 parsed2 :
  serializers._parseAccept (acceptOf request1) = Returned parsed1 ->
  serializers._parseAccept (acceptOf request2) = Returned parsed2 ->
  List.map fst parsed1 = List.map fst parsed2 ->
  _getEncoder repr self request1 w = _getEncoder repr self request2 w.
Proof.
  intros H1 H2 Hsame. rewrite !getEncoder_cases, H1, H2.
  assert (Ht : acceptedTypes parsed1 = acceptedTypes parsed2).
  { unfold acceptedTypes.
    rewrite <- (List.map_map fst PyString.lower parsed1).
    rewrite <- (List.map_map fst PyString.lower parsed2).
    rewrite Hsame. reflexivity. }
  rewrite Ht. reflexivity.
Qed.

(** X4: [_getEncoder] touches nothing but the [Content-Type] header
    of the response: when it returns an encoder, that header is set
    to the encoder's content type; when it raises, the request is as
    before. The status, the collection and the record of invocations
    are never changed. *)
Theorem getEncoder_effect (self : EncodingResource) request (w w' : world C E) r :
  _getEncoder repr self request w = (r, w') ->
  match r with
  | Returned encoder => w' = typed (contentType encoder) w
  | Raised _ => w' = w
  end /\
  collection w' = collection w /\ invoked w' = invoked w /\ status w' = status w.
Proof.
  rewrite getEncoder_cases.
  destruct (serializers._parseAccept (acceptOf request)) as [parsed|e].
  - destruct (firstAccepted (acceptedTypes parsed) (encoders self)).
    + intros [= <- <-]. repeat split.
    + destruct (existsb (String.eqb "*/*") (acceptedTypes parsed));
        intros [= <- <-]; repeat split.
  - intros [= <- <-]. repeat split.
Qed.

(** X5: the wildcard is a fallback only. When some accepted type has
    a registered encoder, the encoder returned is a registered one
    whose content type is among the accepted types, wherever [*/*]
    stands in the header and whatever the default encoder is. *)
Theorem getEncoder_registered_first (self : EncodingResource) request (w : world C E)
        parsed t c :
  serializers._parseAccept (acceptOf request) = Returned parsed ->
  In t (acceptedTypes parsed) -> In c (encoders self) -> contentType c = t ->
  exists encoder,
    fst (_getEncoder repr self request w) = Returned encoder /\
    In encoder (encoders self) /\
    In (contentType encoder) (acceptedTypes parsed).
Proof.
  intros Hp Ht Hc Heq. rewrite getEncoder_cases, Hp.
  destruct (firstAccepted (acceptedTypes parsed) (encoders self)) as [encoder|] eqn:Hf.
  - destruct (firstAccepted_spec _ _ _ Hf) as (before & after' & Hacc & Hin & _ & _).
    exists encoder. split; [reflexivity|]. split; [assumption|].
    rewrite Hacc. apply in_or_app. right. left. reflexivity.
  - exfalso. apply (proj1 (firstAccepted_none _ _) Hf t c); assumption.
Qed.

(** X6: a request without [Accept] header, or with an empty one, is
    served as if it accepted [*/*]: unless an encoder is registered
    under the literal type [*/*], the default encoder is returned,
    registered or not, and its content type is set on the response. *)
Theorem getEncoder_no_header (self : EncodingResource) request (w : world C E) :
  getHeader request "Accept" = None \/ getHeader request "Accept" = Some "" ->
  (forall c, In c (encoders self) -> contentType c <> "*/*") ->
  _getEncoder repr self request w =
    (Returned (defaultEncoder self), typed (contentType (defaultEncoder self)) w).
Proof.
  intros Hh Hno.
  assert (Ha : acceptOf request = "*/*").
  { unfold acceptOf. destruct Hh as [-> | ->]; reflexivity. }
  apply (getEncoder_default repr self request w [("*/*", (∅ : gmap string string))]).
  - rewrite Ha. reflexivity.
  - apply firstAccepted_none. intros t c [<-|[]] Hc. simpl. apply Hno. assumption.
  - left. reflexivity.
Qed.

(** X7: the accepted types are lower-cased before they are compared,
    the registered types are not. So an encoder registered under a
    content type with a capital letter is never found by the loops:
    if [_getEncoder] returns it, it is as the default encoder. *)
Theorem getEncoder_capitals_only_default (self : EncodingResource) request
        (w : world C E) encoder :
  fst (_getEncoder repr self request w) = Returned encoder ->
  PyString.lower (contentType encoder) <> contentType encoder ->
  encoder = defaultEncoder self.
Proof.
  rewrite getEncoder_cases.
  destruct (serializers._parseAccept (acceptOf request)) as [parsed|e]; [|discriminate].
  destruct (firstAccepted (acceptedTypes parsed) (encoders self)) as [found|] eqn:Hf.
  - simpl. intros [= ->] Hcap. exfalso. apply Hcap.
    destruct (firstAccepted_spec _ _ _ Hf) as (before & after' & Hacc & _).
    assert (Hin : In (contentType encoder) (acceptedTypes parsed)).
    { rewrite Hacc. apply in_or_app. right. left. reflexivity. }
    unfold acceptedTypes in Hin. apply in_map_iff in Hin as (p & <- & _).
    apply lower_idempotent.
  - destruct (existsb (String.eqb "*/*") (acceptedTypes parsed)); simpl;
      [|discriminate].
    intros [= ->] _. reflexivity.
Qed.

Lemma getDecoder_cases (self : EncodingResource) request (w : world C E) :
  _getDecoder repr self request w =
    (match getHeader request "Content-Type" with
     | None =>
         Raised (Serializable
                   (MkError MissingContentType "request didn't specify a content type"
                            [("supportedContentTypes", strings (decoderTypes self))]))
     | Some t =>
         match List.find (fun d => String.eqb (contentType d) t) (decoders self) with
         | Some decoder => Returned decoder
         | None => Raised (AttributeError "txyoga.errors" "UnsupportedContentType")
         end
     end, w).
Proof.
  unfold _getDecoder. destruct (getHeader request "Content-Type") as [t|]; [|reflexivity].
  destruct (List.find _ (decoders self)); reflexivity.
Qed.

(** X8: [_getDecoder] returns a decoder exactly when the request has a
    [Content-Type] header and the decoder is the first registered one
    whose content type is that header, character for character; it
    never changes the request or the collection, and never calls a
    decoder. *)
Theorem getDecoder_returns_iff (self : EncodingResource) request (w w' : world C E)
        decoder :
  (_getDecoder repr self request w = (Returned decoder, w') <->
   w' = w /\
   exists t, getHeader request "Content-Type" = Some t /\
             List.find (fun d => String.eqb (contentType d) t) (decoders self)
             = Some decoder) /\
  (forall r w'', _getDecoder repr self request w = (r, w'') -> w'' = w).
Proof.
  rewrite getDecoder_cases. split; [split|].
  - intros [= Hr <-]. split; [reflexivity|].
    destruct (getHeader request "Content-Type") as [t|]; [|discriminate].
    exists t. split; [reflexivity|].
    destruct (List.find _ (decoders self)); congruence.
  - intros (-> & t & -> & ->). reflexivity.
  - intros r w'' [= _ <-]. reflexivity.
Qed.
End NegotiationMore.

Lemma getEncoder_ignores_parameters_witness :
  _getEncoder (C:=Store.t) (E:=Store.element) Store.reprExample jsonResource
    (Examples.mkRequest "GET" [("accept", "text/xml;q=0.1, application/json;q=0.9")] []
                        (RawText ""))
    (Store.fresh Examples.twoThings)
  = _getEncoder Store.reprExample jsonResource
      (Examples.mkRequest "GET" [("accept", "text/xml;q=0.9, application/json;q=0.1")] []
                          (RawText ""))
      (Store.fresh Examples.twoThings).
Proof.
  eapply getEncoder_ignores_parameters; reflexivity.
Defined.

Lemma getEncoder_effect_witness :
  _getEncoder Store.reprExample jsonResource
    (Examples.mkRequest "GET" [("accept", "application/json")] [] (RawText ""))
    (Store.fresh Examples.twoThings)
  = (Returned serializers.jsonEncode,
     typed "application/json" (Store.fresh Examples.twoThings)) /\
  status (typed "application/json" (Store.fresh Examples.twoThings))
  = status (Store.fresh Examples.twoThings).
Proof.
  split; [reflexivity|].
  destruct (getEncoder_effect Store.reprExample jsonResource
              (Examples.mkRequest "GET" [("accept", "application/json")] [] (RawText ""))
              (Store.fresh Examples.twoThings)
              (typed "application/json" (Store.fresh Examples.twoThings))
              (Returned serializers.jsonEncode) eq_refl)
    as (_ & _ & _ & Hs).
  exact Hs.
Defined.

Lemma getEncoder_registered_first_witness :
  exists encoder,
    fst (_getEncoder (C:=Store.t) (E:=Store.element) Store.reprExample jsonResource
           (Examples.mkRequest "GET" [("accept", "*/*, Application/JSON")] [] (RawText ""))
           (Store.fresh Examples.twoThings)) = Returned encoder /\
    In encoder (encoders jsonResource) /\
    In (contentType encoder) ["*/*"; "application/json"].
Proof.
  apply (getEncoder_registered_first Store.reprExample jsonResource
           (Examples.mkRequest "GET" [("accept", "*/*, Application/JSON")] [] (RawText ""))
           (Store.fresh Examples.twoThings)
           [("*/*", ∅); ("Application/JSON", ∅)] "application/json" serializers.jsonEncode).
  - reflexivity.
  - right. left. reflexivity.
  - left. reflexivity.
  - reflexivity.
Defined.

Lemma getEncoder_no_header_witness :
  _getEncoder Store.reprExample jsonResource Examples.plainGet (Store.fresh Examples.twoThings)
  = (Returned serializers.jsonEncode,
     typed "application/json" (Store.fresh Examples.twoThings)).
Proof.
  apply (getEncoder_no_header Store.reprExample jsonResource Examples.plainGet
           (Store.fresh Examples.twoThings)).
  - left. reflexivity.
  - intros c [<-|[]]. discriminate.
Defined.

Lemma getEncoder_capitals_only_default_witness :
  capitalJson = defaultEncoder capitalResource.
Proof.
  apply (getEncoder_capitals_only_default (C:=Store.t) (E:=Store.element)
           Store.reprExample capitalResource
           (Examples.mkRequest "GET" [("accept", "application/json, */*")] [] (RawText ""))
           (Store.fresh Examples.twoThings) capitalJson).
  - reflexivity.
  - discriminate.
Defined.

(** ** Links, continued *)

Lemma append_cancel_l (p x y : string) : p +:+ x = p +:+ y -> x = y.
Proof. induction p as [|c p IH]; simpl; [tauto|]. intros [= Hxy]. auto. Qed.

Lemma of_Z_numerals n : allChars isNumeral (PyString.of_Z n) = true.
Proof.
  unfold PyString.of_Z. destruct n as [|p|p]; [reflexivity| |]; simpl;
    unfold NilZero.string_of_uint;
    destruct (Pos.to_uint p) eqn:Hp; try reflexivity; rewrite <- Hp;
    try apply uint_text_numerals;
    pose proof (uint_text_numerals (Pos.to_uint p)) as Hn; rewrite Hp in Hn |- *;
    exact Hn.
Qed.

Lemma of_Z_inj a b : PyString.of_Z a = PyString.of_Z b -> a = b.
Proof.
  intros Heq. pose proof (to_Z_of_Z a) as Ha. rewrite Heq, to_Z_of_Z in Ha. congruence.
Qed.

(** Two texts cut at their first ampersand. *)
Lemma cut_at_ampersand s1 : forall s2 t1 t2,
  allChars isNumeral s1 = true -> allChars isNumeral s2 = true ->
  s1 +:+ String "&" t1 = s2 +:+ String "&" t2 -> s1 = s2 /\ t1 = t2.
Proof.
  induction s1 as [|c s1 IH]; intros [|c' s2] t1 t2 H1 H2; simpl.
  - intros [= ->]. split; reflexivity.
  - intros [= <- _]. simpl in H2. discriminate.
  - intros [= -> _]. simpl in H1. discriminate.
  - intros [= -> Hrest]. simpl in H1, H2.
    apply andb_true_iff in H1 as [_ H1]. apply andb_true_iff in H2 as [_ H2].
    destruct (IH _ _ _ H1 H2 Hrest) as [-> ->]. split; reflexivity.
Qed.

Lemma urlencode_window start stop :
  urlencode [("start", start); ("stop", stop)] =
    "start=" +:+ (PyString.of_Z start +:+ String "&" ("stop=" +:+ PyString.of_Z stop)).
Proof. reflexivity. Qed.

Lemma buildURL_address thisURL start stop :
  @buildURL thisURL start stop =
    pageAddress thisURL +:+ "?" +:+ urlencode [("start", start); ("stop", stop)].
Proof.
  unfold buildURL, pageAddress, urlunsplit. rewrite urlencode_window. reflexivity.
Qed.

(** X9: a link tells its window: two links built from the same
    address are equal only if they are built for the same [start] and
    the same [stop]. *)
Theorem buildURL_inj thisURL start stop start' stop' :
  buildURL thisURL start stop = buildURL thisURL start' stop' ->
  start = start' /\ stop = stop'.
Proof.
  rewrite !buildURL_address, !urlencode_window. intros Heq.
  apply append_cancel_l in Heq. apply (append_cancel_l "?") in Heq.
  apply (append_cancel_l "start=") in Heq.
  apply cut_at_ampersand in Heq as [Ha Hb]; try apply of_Z_numerals.
  apply (append_cancel_l "stop=") in Hb.
  split; apply of_Z_inj; assumption.
Qed.

Lemma buildURL_inj_witness :
  buildURL Examples.things 3 6 = "http://localhost/things?start=3&stop=6" /\
  3 = 3 /\ 6 = 6.
Proof.
  split; [reflexivity|].
  apply (buildURL_inj Examples.things 3 6 3 6). reflexivity.
Defined.

Section LinksMore.
Context {C E : Type} `{Backing C E}.
Variable repr : pyval -> string.

Lemma follow_pairs request (w : world C E) start stop :
  queryPairs request = linkPairs start stop ->
  _getBounds repr request w = (Returned (start, stop), w).
Proof.
  intros Hq. rewrite getBounds_cases, !getBound_cases, Hq. simpl.
  rewrite !to_Z_of_Z. reflexivity.
Qed.

Lemma window_of_pairs request (w : world C E) start stop :
  queryPairs request = linkPairs start stop ->
  fst (render_GET_window repr request w) =
    obind (fst (_getPaginationURLs repr (prePathURL request) start stop w))
          (fun links => Returned ((start, stop), links)).
Proof.
  intros Hq. unfold render_GET_window, bind. rewrite (follow_pairs _ _ _ _ Hq). simpl.
  rewrite getPaginationURLs_cases.
  destruct (stop - start <? 0); [reflexivity|].
  destruct (stop - start >? maxPageSize (collection w)); reflexivity.
Qed.

(** X10: on the page the next link leads to, the previous link leads
    back: for a window of positive width within the limits that
    starts at 0 or later, the window [[stop, stop + width)] gets the
    link of [[start, stop)] as its previous link. *)
Theorem next_then_previous thisURL start stop (w : world C E) :
  0 <= start -> 0 < stop - start <= maxPageSize (collection w) ->
  fst (_getPaginationURLs repr thisURL stop (stop + (stop - start)) w) =
    Returned (Some (buildURL thisURL start stop),
              Some (buildURL thisURL (stop + (stop - start))
                             (stop + (stop - start) + (stop - start)))).
Proof.
  intros Hs [Hlo Hhi]. rewrite getPaginationURLs_cases. simpl.
  replace (stop + (stop - start) - stop) with (stop - start) by lia.
  replace (stop - start <? 0) with false by (symmetry; apply Z.ltb_ge; lia).
  replace (stop - start >? maxPageSize (collection w)) with false
    by (symmetry; rewrite Z.gtb_ltb; apply Z.ltb_ge; lia).
  replace (Z.max 0 (stop - (stop - start))) with start by lia.
  replace (start =? stop) with false by (symmetry; apply Z.eqb_neq; lia).
  reflexivity.
Qed.

(** X11: the page the previous link leads to is as wide as the room
    before [start] allows, [min(width, start)], and its next link is
    built for a window of that width from [start] on. It leads back
    to [[start, stop)] when a whole page fits before [start], and to
    a narrower window when [start] is less than the width. *)
Theorem previous_then_next thisURL start stop (w : world C E) :
  0 < start -> 0 < stop - start <= maxPageSize (collection w) ->
  let back := Z.min (stop - start) start in
  (exists nextURL,
     fst (_getPaginationURLs repr thisURL start stop w) =
       Returned (Some (buildURL thisURL (start - back) start), nextURL)) /\
  (exists prevURL,
     fst (_getPaginationURLs repr thisURL (start - back) start w) =
       Returned (prevURL, Some (buildURL thisURL start (start + back)))) /\
  (start + back = stop <-> stop - start <= start).
Proof.
  intros Hs [Hlo Hhi] back. split; [|split].
  - rewrite getPaginationURLs_cases. simpl.
    replace (stop - start <? 0) with false by (symmetry; apply Z.ltb_ge; lia).
    replace (stop - start >? maxPageSize (collection w)) with false
      by (symmetry; rewrite Z.gtb_ltb; apply Z.ltb_ge; lia).
    replace (Z.max 0 (start - (stop - start))) with (start - back) by (unfold back; lia).
    replace (start - back =? start) with false
      by (symmetry; apply Z.eqb_neq; unfold back; lia).
    eexists. reflexivity.
  - rewrite getPaginationURLs_cases. simpl.
    replace (start - (start - back)) with back by lia.
    replace (back <? 0) with false by (symmetry; apply Z.ltb_ge; unfold back; lia).
    replace (back >? maxPageSize (collection w)) with false
      by (symmetry; rewrite Z.gtb_ltb; apply Z.ltb_ge; unfold back; lia).
    eexists. reflexivity.
  - unfold back. lia.
Qed.

(** X12: the links of a listing can be followed. For a window within
    the limits that starts at 0 or later, a request that carries the
    bounds of the next link, or those of the previous window
    [[max(0, start - width), start)], passes the checks of
    [render_GET]: no pagination error is raised. *)
Theorem links_can_be_followed request start stop (w : world C E) :
  0 <= start -> 0 <= stop - start <= maxPageSize (collection w) ->
  queryPairs request = linkPairs stop (stop + (stop - start)) \/
  queryPairs request = linkPairs (Z.max 0 (start - (stop - start))) start ->
  exists window, fst (render_GET_window repr request w) = Returned window.
Proof.
  intros Hs [Hlo Hhi] [Hq|Hq]; rewrite (window_of_pairs _ _ _ _ Hq);
    rewrite getPaginationURLs_cases; simpl.
  - replace (stop + (stop - start) - stop) with (stop - start) by lia.
    replace (stop - start <? 0) with false by (symmetry; apply Z.ltb_ge; lia).
    replace (stop - start >? maxPageSize (collection w)) with false
      by (symmetry; rewrite Z.gtb_ltb; apply Z.ltb_ge; lia).
    eexists. reflexivity.
  - replace (start - Z.max 0 (start - (stop - start)) <? 0) with false
      by (symmetry; apply Z.ltb_ge; lia).
    replace (start - Z.max 0 (start - (stop - start)) >? maxPageSize (collection w))
      with false by (symmetry; rewrite Z.gtb_ltb; apply Z.ltb_ge; lia).
    eexists. reflexivity.
Qed.

(** X13: a window that starts below 0 gets a previous link that
    cannot be followed: the link is built for [[0, start)], and a
    request that carries these bounds is refused for its negative
    width. *)
Theorem previous_link_of_negative_start request start stop (w : world C E) :
  start < 0 -> 0 <= stop - start <= maxPageSize (collection w) ->
  queryPairs request = linkPairs 0 start ->
  (exists nextURL,
     fst (_getPaginationURLs repr (prePathURL request) start stop w) =
       Returned (Some (buildURL (prePathURL request) 0 start), nextURL)) /\
  fst (render_GET_window repr request w) =
    Raised (paginationError "Requested page size is negative").
Proof.
  intros Hs [Hlo Hhi] Hq. split.
  - rewrite getPaginationURLs_cases. simpl.
    replace (stop - start <? 0) with false by (symmetry; apply Z.ltb_ge; lia).
    replace (stop - start >? maxPageSize (collection w)) with false
      by (symmetry; rewrite Z.gtb_ltb; apply Z.ltb_ge; lia).
    replace (Z.max 0 (start - (stop - start))) with 0 by lia.
    replace (0 =? start) with false by (symmetry; apply Z.eqb_neq; lia).
    eexists. reflexivity.
  - rewrite (window_of_pairs _ _ _ _ Hq), getPaginationURLs_cases. simpl.
    replace (start - 0 <? 0) with true by (symmetry; apply Z.ltb_lt; lia).
    reflexivity.
Qed.
End LinksMore.

Lemma next_then_previous_witness :
  fst (_getPaginationURLs Store.reprExample Examples.things 6 (6 + (6 - 3))
         (Store.fresh Examples.twoThings))
  = Returned (Some "http://localhost/things?start=3&stop=6",
              Some "http://localhost/things?start=9&stop=12").
Proof.
  apply (next_then_previous Store.reprExample Examples.things 3 6
           (Store.fresh Examples.twoThings)).
  - lia.
  - simpl. lia.
Defined.

Lemma previous_then_next_witness :
  (exists nextURL,
     fst (_getPaginationURLs Store.reprExample Examples.things 2 7
            (Store.fresh Examples.twoThings))
     = Returned (Some "http://localhost/things?start=0&stop=2", nextURL)) /\
  (exists prevURL,
     fst (_getPaginationURLs Store.reprExample Examples.things 0 2
            (Store.fresh Examples.twoThings))
     = Returned (prevURL, Some "http://localhost/things?start=2&stop=4")) /\
  (2 + 2 = 7 <-> 7 - 2 <= 2).
Proof.
  apply (previous_then_next Store.reprExample Examples.things 2 7
           (Store.fresh Examples.twoThings)).
  - lia.
  - simpl. lia.
Defined.

Lemma links_can_be_followed_witness :
  exists window,
    fst (render_GET_window Store.reprExample
           (Examples.mkRequest "GET" [] [("start", "6"); ("stop", "9")] (RawText ""))
           (Store.fresh Examples.twoThings)) = Returned window.
Proof.
  apply (links_can_be_followed Store.reprExample _ 3 6 (Store.fresh Examples.twoThings)).
  - lia.
  - simpl. lia.
  - left. reflexivity.
Defined.

Lemma previous_link_of_negative_start_witness :
  (exists nextURL,
     fst (_getPaginationURLs Store.reprExample Examples.things (-3) 0
            (Store.fresh Examples.twoThings))
     = Returned (Some "http://localhost/things?start=0&stop=-3", nextURL)) /\
  fst (render_GET_window Store.reprExample
         (Examples.mkRequest "GET" [] [("start", "0"); ("stop", "-3")] (RawText ""))
         (Store.fresh Examples.twoThings))
  = Raised (paginationError "Requested page size is negative").
Proof.
  apply (previous_link_of_negative_start Store.reprExample
           (Examples.mkRequest "GET" [] [("start", "0"); ("stop", "-3")] (RawText ""))
           (-3) 0 (Store.fresh Examples.twoThings)).
  - lia.
  - simpl. lia.
  - reflexivity.
Defined.

(** ** Listing a collection, continued *)

Section ListingMore.
Context {C E : Type} `{Backing C E}.
Variable repr : pyval -> string.

(** What the body of [render_GET] leaves behind, however it ends: at
    most one slice invoked, status and headers as they were. *)
Lemma render_GET_body_frame request encoder (w w' : world C E) r :
  render_GET_body repr request encoder w = (r, w') ->
  (w' = w \/ exists start stop c, w' = after (GetSlice start stop) c w) /\
  status w' = status w /\ responseHeaders w' = responseHeaders w.
Proof.
  unfold render_GET_body, bind. rewrite getBounds_cases.
  destruct (obind (_getBound repr (args request) "start" 0) _) as [[start stop]|e];
    [|intros [= <- <-]; repeat split; left; reflexivity].
  simpl. rewrite getPaginationURLs_cases.
  destruct (stop - start <? 0); [intros [= <- <-]; repeat split; left; reflexivity|].
  destruct (stop - start >? maxPageSize (collection w));
    [intros [= <- <-]; repeat split; left; reflexivity|].
  unfold invoke, attribute, lift.
  destruct (getslice start stop (collection w)) as [[elements|e] c]; simpl.
  - destruct (toStates (exposedElementAttributes c) elements) as [results|e]; simpl;
      intros [= <- <-]; repeat split; right; exists start, stop, c; reflexivity.
  - intros [= <- <-]. repeat split. right. exists start, stop, c. reflexivity.
Qed.

(** X15: the next link is dropped only when the slice is shorter than
    the window. A page that is exactly full keeps its next link, even
    if nothing follows it in the collection; and for a window of
    width 0 the next link is the link of that same window. *)
Theorem render_GET_full_page request encoder (w : world C E)
        start stop elements c1 results :
  _getBounds repr request w = (Returned (start, stop), w) ->
  0 <= stop - start <= maxPageSize (collection w) ->
  getslice start stop (collection w) = (Returned elements, c1) ->
  toStates (exposedElementAttributes c1) elements = Returned results ->
  stop - start <= Z.of_nat (length elements) ->
  (exists prevURL,
     render_GET_body repr request encoder w =
       (call encoder
          (Plain (envelope results prevURL
                    (Some (buildURL (prePathURL request) stop (stop + (stop - start)))))),
        after (GetSlice start stop) c1 w)) /\
  (stop = start ->
   buildURL (prePathURL request) stop (stop + (stop - start))
   = buildURL (prePathURL request) start stop).
Proof.
  intros Hb Hw Hs Ht Hfull. split.
  - rewrite (render_GET_body_listing _ _ _ _ _ _ _ _ _ Hb Hw Hs Ht).
    replace (stop - start >? Z.of_nat (length elements)) with false
      by (symmetry; rewrite Z.gtb_ltb; apply Z.ltb_ge; lia).
    eexists. reflexivity.
  - intros ->. replace (start + (start - start)) with start by lia. reflexivity.
Qed.
End ListingMore.

Lemma render_GET_full_page_witness :
  (exists prevURL,
     render_GET_body Store.reprExample
       (Examples.mkRequest "GET" [] [("start", "0"); ("stop", "2")] (RawText ""))
       serializers.jsonEncode (Store.fresh Examples.twoThings)
     = (Returned
          (JsonText (envelope [PyDict [("name", PyStr "a")]; PyDict [("name", PyStr "b")]]
                              prevURL (Some "http://localhost/things?start=2&stop=4"))),
        after (GetSlice 0 2) Examples.twoThings (Store.fresh Examples.twoThings))) /\
  (2 = 0 -> buildURL Examples.things 2 (2 + (2 - 0)) = buildURL Examples.things 0 2).
Proof.
  apply (render_GET_full_page Store.reprExample
           (Examples.mkRequest "GET" [] [("start", "0"); ("stop", "2")] (RawText ""))
           serializers.jsonEncode (Store.fresh Examples.twoThings) 0 2
           [Examples.thing "a"; Examples.thing "b"] Examples.twoThings
           [PyDict [("name", PyStr "a")]; PyDict [("name", PyStr "b")]]).
  - reflexivity.
  - simpl. lia.
  - reflexivity.
  - reflexivity.
  - simpl. lia.
Defined.

(** ** Children of a collection, continued *)

Lemma py_ne_string v s : py_ne v (PyStr s) = false <-> v = PyStr s.
Proof.
  unfold py_ne. rewrite negb_false_iff. split.
  - destruct v; simpl; try discriminate. intros Heq. apply String.eqb_eq in Heq.
    congruence.
  - intros ->. simpl. apply String.eqb_refl.
Qed.

Section ChildrenMore.
Context {C E : Type} `{Backing C E}.
Variable repr : pyval -> string.
Variable self : EncodingResource.

Lemma getChild_try_lookup path request (w : world C E) :
  terminal "DELETE" request = false ->
  getChild_try path request w =
    match getitem path (collection w) with
    | (Returned element, c) =>
        (Returned (Completed (ElementResource element)), after (GetItem path) c w)
    | (Raised e, c) => (Raised e, after (GetItem path) c w)
    end.
Proof.
  intros Ht. unfold getChild_try. unfold terminal in Ht. rewrite Ht.
  unfold bind, invoke, IResource, ret, after.
  destruct (getitem path (collection w)) as [[element|e] c]; reflexivity.
Qed.

(** X16: every request but a DELETE on the last path segment is a
    lookup. When the collection holds the element, the child is the
    element's resource and the lookup is the only operation invoked:
    a PUT on an element that exists creates nothing, and a DELETE
    further down the path removes nothing here. *)
Theorem getChild_existing path request (w : world C E) element c :
  terminal "DELETE" request = false ->
  getitem path (collection w) = (Returned element, c) ->
  getChild repr self path request w =
    (Returned (Completed (ElementResource element)), after (GetItem path) c w).
Proof.
  intros Ht Hg. unfold getChild. rewrite (getChild_try_lookup _ _ _ Ht), Hg. reflexivity.
Qed.

(** X17: a lookup that ends in [KeyError] is a missing element unless
    the request is a PUT on the last path segment: the reply is the
    404 report that names the path segment, and the lookup is the
    only operation invoked. *)
Theorem getChild_missing path request (w : world C E) c :
  terminal "DELETE" request = false -> terminal "PUT" request = false ->
  getitem path (collection w) = (Raised KeyError, c) ->
  getChild repr self path request w =
    (Returned (ErrorReport (errorBody (missingResource path))),
     reported (missingResource path) (after (GetItem path) c w)) /\
  responseCode (missingResource path) = http.NOT_FOUND.
Proof.
  intros Hd Hp Hg. split; [|reflexivity].
  unfold getChild. rewrite (getChild_try_lookup _ _ _ Hd), Hg.
  unfold terminal in Hp. rewrite Hp. reflexivity.
Qed.

Lemma terminal_put_not_delete request :
  terminal "PUT" request = true -> terminal "DELETE" request = false.
Proof.
  unfold terminal. intros Hp. apply andb_true_iff in Hp as [Hm _].
  apply String.eqb_eq in Hm. rewrite Hm. reflexivity.
Qed.

Lemma getChild_put_missing path request (w : world C E) c :
  terminal "PUT" request = true ->
  getitem path (collection w) = (Raised KeyError, c) ->
  getChild repr self path request w =
    _createElement repr self request (Some path) (after (GetItem path) c w).
Proof.
  intros Hp Hg. unfold getChild.
  rewrite (getChild_try_lookup _ _ _ (terminal_put_not_delete _ Hp)), Hg.
  unfold terminal in Hp. rewrite Hp. reflexivity.
Qed.

(** X18: a PUT on the last path segment for an identifier the
    collection does not hold creates the element there. With a
    registered content type, a body that decodes, and an element
    whose identifying attribute is the path segment, the operations
    invoked are the lookup, [createElementFromState] and [add], in
    this order, and the child is [Created]. *)
Theorem getChild_put_creates path request (w : world C E)
        c t decoder state element c1 c2 :
  terminal "PUT" request = true ->
  getitem path (collection w) = (Raised KeyError, c) ->
  getHeader request "Content-Type" = Some t ->
  List.find (fun d => String.eqb (contentType d) t) (decoders self) = Some decoder ->
  call decoder (content request) = Returned state ->
  createElementFromState state c = (Returned element, c1) ->
  getattr element (identifyingAttribute element) = Returned (PyStr path) ->
  add element c1 = (Returned tt, c2) ->
  getChild repr self path request w =
    (Returned (Completed Created),
     after (Add element) c2
       (after (CreateElementFromState state) c1 (after (GetItem path) c w))).
Proof.
  intros Hp Hg Hh Hf Hd Hc Ha Hadd. rewrite (getChild_put_missing _ _ _ _ Hp Hg).
  unfold _createElement. apply reportErrors_completed.
  rewrite (negotiated_decoder_resolved repr _ self request _ _ decoder
             (getDecoder_match repr self request _ t decoder Hh Hf)).
  unfold _createElement_body, bind, lift, invoke, ret. rewrite Hd. simpl.
  rewrite Hc. simpl. rewrite Ha.
  rewrite (proj2 (py_ne_string (PyStr path) path) eq_refl). simpl. rewrite Hadd.
  reflexivity.
Qed.

(** X19: the same PUT without [Content-Type] header creates nothing:
    after the lookup no operation is invoked on the collection, and
    the reply is the 415 report that lists the supported types. *)
Theorem getChild_put_untyped path request (w : world C E) c :
  terminal "PUT" request = true ->
  getitem path (collection w) = (Raised KeyError, c) ->
  getHeader request "Content-Type" = None ->
  getChild repr self path request w =
    (Returned (ErrorReport (errorBody (missingContentType (decoderTypes self)))),
     reported (missingContentType (decoderTypes self)) (after (GetItem path) c w)) /\
  responseCode (missingContentType (decoderTypes self)) = http.UNSUPPORTED_MEDIA_TYPE.
Proof.
  intros Hp Hg Hh. split; [|reflexivity]. rewrite (getChild_put_missing _ _ _ _ Hp Hg).
  unfold _createElement. apply reportErrors_caught.
  apply negotiated_decoder_unresolved. apply getDecoder_missing. assumption.
Qed.

(** X20: only [KeyError] is read as a missing element. Any other
    exception of the removal or of the lookup leaves [getChild] as it
    was raised: no report is written and nothing is created. *)
Theorem getChild_other_exceptions path request (w : world C E) x c :
  x <> KeyError ->
  (terminal "DELETE" request = true ->
   removeByIdentifier path (collection w) = (Raised x, c) ->
   getChild repr self path request w = (Raised x, after (RemoveByIdentifier path) c w)) /\
  (terminal "DELETE" request = false ->
   getitem path (collection w) = (Raised x, c) ->
   getChild repr self path request w = (Raised x, after (GetItem path) c w)).
Proof.
  intros Hx. split.
  - intros Ht Hr. unfold terminal in Ht. apply andb_true_iff in Ht as [Hm Hp].
    apply String.eqb_eq in Hm. apply Nat.eqb_eq in Hp.
    assert (Hpp : postpath request = []) by (destruct (postpath request); [reflexivity|discriminate]).
    unfold getChild. rewrite (getChild_try_delete _ _ _ Hm Hpp), Hr.
    destruct x; try reflexivity. congruence.
  - intros Ht Hg. unfold getChild. rewrite (getChild_try_lookup _ _ _ Ht), Hg.
    destruct x; try reflexivity. congruence.
Qed.

(** When the decoder raises, the bodies of [_createElement] and of
    [render_PUT] raise the same exception and the request is as it
    was. *)
Lemma decoding_raises_in_bodies request identifier decoder element (w : world C E) x :
  call decoder (content request) = Raised x ->
  _createElement_body repr request identifier decoder w = (Raised x, w) /\
  element_render_PUT_body element request decoder w = (Raised x, w).
Proof.
  intros Hd. split.
  - unfold _createElement_body, bind, lift. rewrite Hd. reflexivity.
  - unfold element_render_PUT_body, bind, lift. rewrite Hd. reflexivity.
Qed.

(** X22: without an identifier from the path, as for a POST, the new
    element is added as it is: its identifying attribute is not read,
    so no identifier error can arise. *)
Theorem createElement_unidentified request decoder state element c1 c2 (w : world C E) :
  call decoder (content request) = Returned state ->
  createElementFromState state (collection w) = (Returned element, c1) ->
  add element c1 = (Returned tt, c2) ->
  _createElement_body repr request None decoder w =
    (Returned Created,
     after (Add element) c2 (after (CreateElementFromState state) c1 w)).
Proof.
  intros Hd Hc Hadd. unfold _createElement_body, bind, lift, invoke, ret.
  rewrite Hd, Hc. simpl. rewrite Hadd. reflexivity.
Qed.

(** X23: the identifier of the path is a string, and the comparison
    is Python's [!=]. So the identifier check passes only for an
    element whose identifying attribute is that very string: any
    other value, the integer 42 at the path ["42"] included, raises
    the identifier error before [add] is invoked. *)
Theorem createElement_string_identifiers request identifier decoder state element
        actual c1 (w : world C E) :
  call decoder (content request) = Returned state ->
  createElementFromState state (collection w) = (Returned element, c1) ->
  getattr element (identifyingAttribute element) = Returned actual ->
  actual <> PyStr identifier ->
  _createElement_body repr request (Some identifier) decoder w =
    (Raised (Serializable (identifierMismatch repr (PyStr identifier) actual)),
     after (CreateElementFromState state) c1 w).
Proof.
  intros Hd Hc Ha Hne.
  assert (Hpy : py_ne actual (PyStr identifier) = true).
  { destruct (py_ne actual (PyStr identifier)) eqn:Hp; [reflexivity|].
    apply py_ne_string in Hp. contradiction. }
  unfold _createElement_body, bind, lift, invoke. rewrite Hd, Hc. simpl.
  rewrite Ha, Hpy. reflexivity.
Qed.
End ChildrenMore.

Lemma getChild_existing_witness :
  getChild Store.reprExample jsonResource "a" (Examples.put (PyStr "a"))
           (Store.fresh Examples.twoThings)
  = (Returned (Completed (ElementResource (Examples.thing "a"))),
     after (GetItem "a") Examples.twoThings (Store.fresh Examples.twoThings)).
Proof.
  apply (getChild_existing Store.reprExample jsonResource "a" (Examples.put (PyStr "a"))
           (Store.fresh Examples.twoThings)); reflexivity.
Defined.

Lemma getChild_missing_witness :
  getChild Store.reprExample jsonResource "42" Examples.plainGet
           (Store.fresh Examples.twoThings)
  = (Returned (ErrorReport (errorBody (missingResource "42"))),
     reported (missingResource "42")
       (after (GetItem "42") Examples.twoThings (Store.fresh Examples.twoThings))) /\
  responseCode (missingResource "42") = http.NOT_FOUND.
Proof.
  apply (getChild_missing Store.reprExample jsonResource "42" Examples.plainGet
           (Store.fresh Examples.twoThings)); reflexivity.
Defined.

Lemma getChild_put_creates_witness :
  getChild Store.reprExample jsonResource "42" (Examples.put (PyStr "42"))
           (Store.fresh Examples.twoThings)
  = (Returned (Completed Created),
     after (Add (Store.MkElement "name" [("name", PyStr "42")]))
       (Store.withElements Examples.twoThings
          [Examples.thing "a"; Examples.thing "b";
           Store.MkElement "name" [("name", PyStr "42")]])
       (after (CreateElementFromState (PyDict [("name", PyStr "42")])) Examples.twoThings
          (after (GetItem "42") Examples.twoThings (Store.fresh Examples.twoThings)))).
Proof.
  apply (getChild_put_creates Store.reprExample jsonResource "42"
           (Examples.put (PyStr "42")) (Store.fresh Examples.twoThings)
           Examples.twoThings "application/json" serializers.jsonDecode);
    reflexivity.
Defined.

Lemma getChild_put_untyped_witness :
  getChild Store.reprExample jsonResource "42"
           (Examples.mkRequest "PUT" [] [] (JsonText (PyDict [("name", PyStr "42")])))
           (Store.fresh Examples.twoThings)
  = (Returned (ErrorReport (errorBody (missingContentType ["application/json"]))),
     reported (missingContentType ["application/json"])
       (after (GetItem "42") Examples.twoThings (Store.fresh Examples.twoThings))) /\
  responseCode (missingContentType ["application/json"]) = http.UNSUPPORTED_MEDIA_TYPE.
Proof.
  apply (getChild_put_untyped Store.reprExample jsonResource "42"
           (Examples.mkRequest "PUT" [] [] (JsonText (PyDict [("name", PyStr "42")])))
           (Store.fresh Examples.twoThings)); reflexivity.
Defined.

Lemma getChild_other_exceptions_witness :
  getChild (H:=unreachable) Store.reprExample jsonResource "a" Examples.delete
           (MkWorld tt [] http.OK ∅)
  = (Raised (Fault "ConnectionLost"),
     after (RemoveByIdentifier "a") tt (MkWorld tt [] http.OK ∅)) /\
  getChild (H:=unreachable) Store.reprExample jsonResource "a" Examples.plainGet
           (MkWorld tt [] http.OK ∅)
  = (Raised (Fault "ConnectionLost"), after (GetItem "a") tt (MkWorld tt [] http.OK ∅)).
Proof.
  assert (Hx : Fault "ConnectionLost" <> KeyError) by discriminate.
  split.
  - apply (getChild_other_exceptions (H:=unreachable) Store.reprExample jsonResource "a"
             Examples.delete (MkWorld tt [] http.OK ∅) _ tt Hx); reflexivity.
  - apply (getChild_other_exceptions (H:=unreachable) Store.reprExample jsonResource "a"
             Examples.plainGet (MkWorld tt [] http.OK ∅) _ tt Hx); reflexivity.
Defined.

Lemma createElement_unidentified_witness :
  _createElement_body Store.reprExample
    (Examples.mkRequest "POST" [("content-type", "application/json")] []
                        (JsonText (PyDict [("colour", PyStr "blue")])))
    None serializers.jsonDecode (Store.fresh Examples.twoThings)
  = (Returned Created,
     after (Add (Store.MkElement "name" [("colour", PyStr "blue")]))
       (Store.withElements Examples.twoThings
          [Examples.thing "a"; Examples.thing "b";
           Store.MkElement "name" [("colour", PyStr "blue")]])
       (after (CreateElementFromState (PyDict [("colour", PyStr "blue")]))
              Examples.twoThings (Store.fresh Examples.twoThings))).
Proof.
  apply (createElement_unidentified Store.reprExample
           (Examples.mkRequest "POST" [("content-type", "application/json")] []
                               (JsonText (PyDict [("colour", PyStr "blue")])))
           serializers.jsonDecode); reflexivity.
Defined.

Lemma createElement_string_identifiers_witness :
  _createElement_body Store.reprExample (Examples.put (PyInt 42)) (Some "42")
                      serializers.jsonDecode (Store.fresh Examples.twoThings)
  = (Raised (Serializable (identifierMismatch Store.reprExample (PyStr "42") (PyInt 42))),
     after (CreateElementFromState (PyDict [("name", PyInt 42)])) Examples.twoThings
           (Store.fresh Examples.twoThings)).
Proof.
  apply (createElement_string_identifiers Store.reprExample (Examples.put (PyInt 42)) "42"
           serializers.jsonDecode (PyDict [("name", PyInt 42)])
           (Store.MkElement "name" [("name", PyInt 42)]) (PyInt 42) Examples.twoThings
           (Store.fresh Examples.twoThings)); try reflexivity.
  discriminate.
Defined.

(** ** Parameters of a segment, bounds of a query *)

Section BoundsMore.
Variable repr : pyval -> string.

(** X25: whatever the dictionary of arguments, also one that binds a
    name to no value, [_getBound] returns an integer or raises a
    pagination error: the [KeyError] of a missing name gives the
    default, and neither a [ValueError] nor an [IndexError] gets
    out. *)
Theorem getBound_only_pagination_errors (args : gmap string (list string)) key default :
  (exists n, _getBound repr args key default = Returned n /\
             (args !! key = None -> n = default)) \/
  (exists message, _getBound repr args key default = Raised (paginationError message) /\
                   args !! key <> None).
Proof.
  unfold _getBound, _getBound_try.
  destruct (args !! key) as [[|value [|value' rest]]|] eqn:Hk; simpl.
  - right. eexists. split; [reflexivity|discriminate].
  - destruct (PyString.to_Z value) as [n|].
    + left. exists n. split; [reflexivity|discriminate].
    + right. eexists. split; [reflexivity|discriminate].
  - right. eexists. split; [reflexivity|discriminate].
  - left. exists default. split; reflexivity.
Qed.
End BoundsMore.

(** ** Typed errors of the handlers *)

Section HandlerReports.
Context {C E : Type} `{Backing C E}.
Variable repr : pyval -> string.
Variable self : EncodingResource.



(** In this code the resolution of the encoder raises no
    serializable error: it returns, or it raises the [ValueError] of
    the parse or the [AttributeError] of the unbound class name. *)
Lemma getEncoder_raises_untyped request (w w' : world C E) e :
  _getEncoder repr self request w <> (Raised (Serializable e), w').
Proof.
  rewrite getEncoder_cases.
  destruct (serializers._parseAccept (acceptOf request)) as [parsed|x] eqn:Hp.
  - destruct (firstAccepted (acceptedTypes parsed) (encoders self)); [discriminate|].
    destruct (existsb (String.eqb "*/*") (acceptedTypes parsed)); discriminate.
  - rewrite (parseAccept_raises _ _ Hp). discriminate.
Qed.

End HandlerReports.


(** ** What the listing handler leaves behind *)

Section ListingFrame.
Context {C E : Type} `{Backing C E}.
Variable repr : pyval -> string.
Variable self : EncodingResource.

(** X14: the handler [render_GET] of a collection, encoder
    resolution and error report included, only reads the collection.
    However it ends, it has invoked no operation on the collection
    but at most one slice; the status is as before unless a typed
    error was reported, and then it is that error's code; and no
    header has been set but [Content-Type]. *)
Theorem render_GET_reads_only request (w w' : world C E) r :
  render_GET repr self request w = (r, w') ->
  (invoked w' = invoked w \/
   exists start stop, invoked w' = invoked w ++ [GetSlice start stop]) /\
  (status w' = status w \/
   exists e, r = Returned (ErrorReport (errorBody e)) /\ status w' = responseCode e) /\
  (responseHeaders w' = responseHeaders w \/
   exists t, responseHeaders w' = <["Content-Type" := t]> (responseHeaders w)).
Proof.
  unfold render_GET, reportErrors, negotiated, withEncoder, bind.
  rewrite getEncoder_cases.
  assert (Hbody : forall t rb wb,
            render_GET_body repr request t (typed (contentType t) w) = (rb, wb) ->
            forall r0 w0,
              match rb with
              | Returned a => (Returned (Completed a), wb)
              | Raised (Serializable e) =>
                  (setResponseCode (responseCode e) ;;;
                   body <- lift (call serializers.jsonEncode (ErrorObj e)) ;;
                   ret (ErrorReport body))%M wb
              | Raised other => (Raised other, wb)
              end = (r0, w0) ->
              (invoked w0 = invoked w \/
               exists start stop, invoked w0 = invoked w ++ [GetSlice start stop]) /\
              (status w0 = status w \/
               exists e, r0 = Returned (ErrorReport (errorBody e)) /\
                         status w0 = responseCode e) /\
              (responseHeaders w0 = responseHeaders w \/
               exists t', responseHeaders w0 = <["Content-Type" := t']> (responseHeaders w))).
  { intros t rb wb Hb r0 w0 Hr.
    destruct (render_GET_body_frame repr request _ _ _ _ Hb) as (Hinv & Hst & Hhd).
    assert (Hi : invoked wb = invoked w \/
                 exists start stop, invoked wb = invoked w ++ [GetSlice start stop]).
    { destruct Hinv as [->|(start & stop & c & ->)];
        [left; reflexivity|right; exists start, stop; reflexivity]. }
    assert (Hh : exists t', responseHeaders wb = <["Content-Type" := t']> (responseHeaders w))
      by (exists (contentType t); rewrite Hhd; reflexivity).
    destruct rb as [a|x].
    - injection Hr as <- <-. split; [exact Hi|]. split; [left; exact Hst|right; exact Hh].
    - destruct x; try (injection Hr as <- <-; split; [exact Hi|];
                       split; [left; exact Hst|right; exact Hh]).
      unfold bind, setResponseCode, lift, ret in Hr. simpl in Hr. injection Hr as <- <-.
      split; [exact Hi|]. split; [|right; exact Hh].
      right. exists e. split; reflexivity. }
  destruct (serializers._parseAccept (acceptOf request)) as [parsed|x] eqn:Hp.
  - destruct (firstAccepted (acceptedTypes parsed) (encoders self)) as [encoder|].
    + destruct (render_GET_body repr request encoder (typed (contentType encoder) w))
        as [rb wb] eqn:Hb.
      intros Hr. exact (Hbody encoder rb wb Hb r w' Hr).
    + destruct (existsb (String.eqb "*/*") (acceptedTypes parsed)).
      * destruct (render_GET_body repr request (defaultEncoder self)
                    (typed (contentType (defaultEncoder self)) w)) as [rb wb] eqn:Hb.
        intros Hr. exact (Hbody (defaultEncoder self) rb wb Hb r w' Hr).
      * intros [= <- <-]. repeat split; left; reflexivity.
  - rewrite (parseAccept_raises _ _ Hp). intros [= <- <-]. repeat split; left; reflexivity.
Qed.
End ListingFrame.

Lemma render_GET_reads_only_witness :
  render_GET Store.reprExample jsonResource Examples.plainGet (Store.fresh Examples.twoThings)
  = (Returned (Completed
                 (JsonText (envelope [PyDict [("name", PyStr "a")];
                                      PyDict [("name", PyStr "b")]] None None))),
     after (GetSlice 0 3) Examples.twoThings
           (typed "application/json" (Store.fresh Examples.twoThings))) /\
  (invoked (after (GetSlice 0 3) Examples.twoThings
                  (typed "application/json" (Store.fresh Examples.twoThings)))
   = invoked (Store.fresh Examples.twoThings) \/
   exists start stop,
     invoked (after (GetSlice 0 3) Examples.twoThings
                    (typed "application/json" (Store.fresh Examples.twoThings)))
     = invoked (Store.fresh Examples.twoThings) ++ [GetSlice start stop]).
Proof.
  assert (Hrun :
    render_GET Store.reprExample jsonResource Examples.plainGet
               (Store.fresh Examples.twoThings)
    = (Returned (Completed
                   (JsonText (envelope [PyDict [("name", PyStr "a")];
                                        PyDict [("name", PyStr "b")]] None None))),
       after (GetSlice 0 3) Examples.twoThings
             (typed "application/json" (Store.fresh Examples.twoThings))))
    by reflexivity.
  split; [exact Hrun|].
  destruct (render_GET_reads_only Store.reprExample jsonResource Examples.plainGet
              _ _ _ Hrun) as (Hinvoked & _ & _).
  exact Hinvoked.
Defined.

(** ** Decoding and parameters, revisited *)

Section DecodingFirst.
Context {C E : Type} `{Backing C E}.
Variable repr : pyval -> string.
Variable self : EncodingResource.

(** What [reportErrors] makes of an exception [x] raised with the
    request in state [w]: a typed error is reported, anything else
    gets through. *)
Lemma reportErrors_raised {A} (h : handler A) request (w w1 : world C E) x :
  negotiated repr h self request w = (Raised x, w1) ->
  reportErrors repr h self request w =
    match x with
    | Serializable e => (Returned (ErrorReport (errorBody e)), reported e w1)
    | _ => (Raised x, w1)
    end.
Proof. intros Hn. unfold reportErrors. rewrite Hn. destruct x; reflexivity. Qed.

(** X21: the body of the request is decoded before the collection is
    touched. With the decoder resolved, when decoding raises [x], the
    handlers [_createElement] and [render_PUT] end without having
    invoked any operation on the collection or the element: [x] gets
    through when it is no typed error, and is reported, with its
    status, when it is one. *)
Theorem decoding_comes_first request identifier decoder element (w : world C E) x :
  _getDecoder repr self request w = (Returned decoder, w) ->
  call decoder (content request) = Raised x ->
  (forall r w', _createElement repr self request identifier w = (r, w') ->
     invoked w' = invoked w /\ collection w' = collection w /\
     match x with
     | Serializable e => r = Returned (ErrorReport (errorBody e)) /\ w' = reported e w
     | _ => r = Raised x /\ w' = w
     end) /\
  (forall r w', element_render_PUT repr self element request w = (r, w') ->
     invoked w' = invoked w /\ collection w' = collection w /\
     match x with
     | Serializable e => r = Returned (ErrorReport (errorBody e)) /\ w' = reported e w
     | _ => r = Raised x /\ w' = w
     end).
Proof.
  intros Hg Hd.
  destruct (decoding_raises_in_bodies repr request identifier decoder element w x Hd)
    as [Hcreate Hput].
  split; intros r w'.
  - unfold _createElement.
    rewrite (reportErrors_raised _ request w w x)
      by (rewrite (negotiated_decoder_resolved repr _ self request w w decoder Hg);
          exact Hcreate).
    destruct x; intros [= <- <-]; repeat split.
  - unfold element_render_PUT.
    rewrite (reportErrors_raised _ request w w x)
      by (rewrite (negotiated_decoder_resolved repr _ self request w w decoder Hg);
          exact Hput).
    destruct x; intros [= <- <-]; repeat split.
Qed.
End DecodingFirst.

Lemma decoding_comes_first_witness :
  (forall r w',
     _createElement Store.reprExample jsonResource
       (Examples.mkRequest "POST" [("content-type", "application/json")] []
                           (RawText "{not json"))
       None (Store.fresh Examples.twoThings) = (r, w') ->
     invoked w' = invoked (Store.fresh Examples.twoThings) /\
     collection w' = collection (Store.fresh Examples.twoThings) /\
     r = Raised ValueError /\ w' = Store.fresh Examples.twoThings) /\
  (forall r w',
     element_render_PUT Store.reprExample jsonResource (Examples.thing "a")
       (Examples.mkRequest "POST" [("content-type", "application/json")] []
                           (RawText "{not json"))
       (Store.fresh Examples.twoThings) = (r, w') ->
     invoked w' = invoked (Store.fresh Examples.twoThings) /\
     collection w' = collection (Store.fresh Examples.twoThings) /\
     r = Raised ValueError /\ w' = Store.fresh Examples.twoThings).
Proof.
  apply (decoding_comes_first Store.reprExample jsonResource
           (Examples.mkRequest "POST" [("content-type", "application/json")] []
                               (RawText "{not json"))
           None serializers.jsonDecode (Examples.thing "a")
           (Store.fresh Examples.twoThings) ValueError); reflexivity.
Defined.

Section LastParameter.
Import serializers.

(** Parameters none of which has the key [key] leave the value of
    [key] as it was. *)
Lemma parseParams_other_keys rawParams key : forall params result,
  parseParams rawParams params = Returned result ->
  (forall p value, In p rawParams -> parseParam p <> Returned (key, value)) ->
  result !! key = params !! key.
Proof.
  induction rawParams as [|p rest IH]; simpl; intros params result.
  - intros [= ->] _. reflexivity.
  - destruct (parseParam p) as [[k v]|e] eqn:Hp; simpl; [|discriminate].
    intros Hr Hno. rewrite (IH _ _ Hr) by (intros p' v' Hin; apply Hno; right; exact Hin).
    apply lookup_insert_ne. intros ->. apply (Hno p v); [left; reflexivity|exact Hp].
Qed.

(** X24: when a segment of the [Accept] header gives a parameter more
    than once, the value kept is the one given last, wherever it
    stands in the segment: the dictionary binds a key to the value of
    the last parameter with that key, with the whitespace around key
    and value removed, whatever comes before it and whatever
    parameters with other keys come after it. *)
Theorem parseParams_last_wins before : forall param after' params result key value,
  parseParams (before ++ param :: after') params = Returned result ->
  parseParam param = Returned (key, value) ->
  (forall p value', In p after' -> parseParam p <> Returned (key, value')) ->
  result !! key = Some value.
Proof.
  induction before as [|p rest IH]; simpl; intros param after' params result key value.
  - intros Hr Hp Hno. rewrite Hp in Hr. simpl in Hr.
    rewrite (parseParams_other_keys _ _ _ _ Hr Hno). apply lookup_insert_eq.
  - destruct (parseParam p) as [kv|e]; simpl; [|discriminate]. apply IH.
Qed.
End LastParameter.

Lemma parseParams_last_wins_witness :
  serializers.parseParams ["q=0.1"; " q = 0.9 "; "a=b"] ∅
  = Returned ({["a" := "b"; "q" := "0.9"]} : gmap string string) /\
  ({["a" := "b"; "q" := "0.9"]} : gmap string string) !! "q" = Some "0.9".
Proof.
  assert (Hrun : serializers.parseParams ["q=0.1"; " q = 0.9 "; "a=b"] ∅
                 = Returned ({["a" := "b"; "q" := "0.9"]} : gmap string string))
    by reflexivity.
  split; [exact Hrun|].
  apply (parseParams_last_wins ["q=0.1"] " q = 0.9 " ["a=b"] ∅ _ "q" "0.9" Hrun).
  - reflexivity.
  - intros p value' [<-|[]]. discriminate.
Defined.
